(** * Video-analysis agent and proxy route: a shallow embedding

    The development follows two source files of the repository:

    - the agent configuration [videoAnalysisAgent] with its six tools
      ([analyzeVideo], [getTranscript], [getSceneDescription],
      [compareAudioVisual], [searchVideoContent], [processVoiceCommand]);
    - the Next.js route [src/app/api/video-analysis/route.ts] with its
      [POST] and [GET] handlers.

    JavaScript values are an inductive type, strings are byte strings
    (the UTF-8 encoding of the JavaScript string, a surrogate without
    its partner written as the three bytes of its code point), and the
    effects of the code (network requests, timers, console output,
    exceptions) are threaded through a small trace-and-exception monad. *)

From Stdlib Require Import String Ascii List Bool Arith Lia ZArith.
From Stdlib Require Import Floats.SpecFloat.
From Equations Require Import Equations.
Import ListNotations.

Local Open Scope list_scope.
Local Open Scope string_scope.

(* ===================================================================== *)
(** ** JavaScript values *)
(* ===================================================================== *)

Module JS.

(** A JavaScript value as [JSON.parse] produces it, plus [undefined]
    (the value of an absent property).  Numbers are IEEE-754 doubles.
    An object is the list of its own properties; [JSON.parse] keeps one
    entry per key, and [property] reads the first one. *)
#[warnings="-register-all"]
Inductive value : Type :=
| VUndefined
| VNull
| VBool (b : bool)
| VNum (x : spec_float)
| VStr (s : string)
| VArr (items : list value)
| VObj (fields : list (string * value)).

(** What the engine supplies and the repository does not define: how a
    number prints ([Number::toString]) and the wording of the
    [TypeError] raised when a property of [null] or [undefined] is
    read. *)
Class Engine : Type := {
  Number_toString : spec_float -> string;
  TypeError_message : value -> string -> string
}.

(** An [Error] object: its [name] and [message]. *)
Record js_error : Type := mkError { err_name : string; err_message : string }.

(** [Error.prototype.toString]. *)
Definition Error_toString (e : js_error) : string :=
  if String.eqb (err_name e) "" then err_message e
  else if String.eqb (err_message e) "" then err_name e
  else err_name e ++ ": " ++ err_message e.

(** A completion: the statement either throws or yields a value. *)
Inductive completion (A : Type) : Type :=
| Throw (e : js_error)
| Normal (a : A).
Arguments Throw {A} e.
Arguments Normal {A} a.

(** [ToBoolean]: [undefined], [null], [false], [+0], [-0], [NaN] and the
    empty string are falsy, every other value is truthy. *)
Definition truthy (v : value) : bool :=
  match v with
  | VUndefined | VNull => false
  | VBool b => b
  | VNum (S754_zero _) | VNum S754_nan => false
  | VNum _ => true
  | VStr s => negb (String.eqb s "")
  | VArr _ | VObj _ => true
  end.

(** [a || b] on values. *)
Definition or_else (a b : value) : value := if truthy a then a else b.

(** [v === 'lit'] for a string literal. *)
Definition strict_eq_string (v : value) (lit : string) : bool :=
  match v with
  | VStr s => String.eqb s lit
  | _ => false
  end.

Fixpoint lookup (key : string) (fields : list (string * value)) : value :=
  match fields with
  | [] => VUndefined
  | (k, v) :: rest => if String.eqb k key then v else lookup key rest
  end.

(** [v.p] for a property name [p] that no prototype defines (such as
    [session_id], [status], [data], [error]): reading it from [null] or
    [undefined] throws a [TypeError], from an object gives the own
    property or [undefined], and from any other value gives
    [undefined]. *)
Definition property `{Engine} (v : value) (p : string) : completion value :=
  match v with
  | VUndefined | VNull => Throw (mkError "TypeError" (TypeError_message v p))
  | VObj fields => Normal (lookup p fields)
  | _ => Normal VUndefined
  end.

(** [ToString], as a template literal applies it to an interpolated
    value.  An array prints as [join(",")], where [null] and
    [undefined] items print as the empty string. *)
Fixpoint ToString `{Engine} (v : value) : string :=
  match v with
  | VUndefined => "undefined"
  | VNull => "null"
  | VBool true => "true"
  | VBool false => "false"
  | VNum x => Number_toString x
  | VStr s => s
  | VArr items =>
      (fix join (l : list value) : string :=
         match l with
         | [] => ""
         | x :: rest =>
             let sx := match x with
                       | VUndefined | VNull => ""
                       | _ => ToString x
                       end in
             match rest with
             | [] => sx
             | _ :: _ => sx ++ "," ++ join rest
             end
         end) items
  | VObj _ => "[object Object]"
  end.

(** The number literal [1.0]. *)
Definition one : spec_float := S754_finite false 4503599627370496 (-52).

(** *** Strings *)

Definition is_upper (c : ascii) : bool :=
  let n := nat_of_ascii c in ((65 <=? n) && (n <=? 90))%nat.

Definition lower_ascii (c : ascii) : ascii :=
  if is_upper c then ascii_of_nat (nat_of_ascii c + 32) else c.

(** [String.prototype.toLowerCase] on the UTF-8 bytes: the letters
    [A]-[Z] are lowered and every other byte is kept.  The only code
    points outside ASCII whose lower case contains an ASCII letter are
    U+212A (to [k]) and U+0130 (to [i] followed by U+0307); neither can
    complete an occurrence of a keyword tested below, so this model
    decides every [includes] test of the source as the engine does. *)
Fixpoint toLowerCase (s : string) : string :=
  match s with
  | EmptyString => EmptyString
  | String c rest => String (lower_ascii c) (toLowerCase rest)
  end.

Fixpoint startsWith (s p : string) : bool :=
  match p, s with
  | EmptyString, _ => true
  | String _ _, EmptyString => false
  | String a p', String b s' => Ascii.eqb a b && startsWith s' p'
  end.

(** [String.prototype.includes]: [p] occurs in [s] at some position. *)
Fixpoint includes (s p : string) : bool :=
  startsWith s p ||
  match s with
  | EmptyString => false
  | String _ rest => includes rest p
  end.

(** The set [A-Z a-z 0-9 - _ . ! ~ * ' ( )] that [encodeURIComponent]
    leaves as it is. *)
Definition uri_unreserved (c : ascii) : bool :=
  let n := nat_of_ascii c in
  (((65 <=? n) && (n <=? 90)) || ((97 <=? n) && (n <=? 122)) ||
   ((48 <=? n) && (n <=? 57)))%nat ||
  existsb (Nat.eqb n) [45; 95; 46; 33; 126; 42; 39; 40; 41]%nat.

Definition hex_digit (n : nat) : ascii :=
  if (n <? 10)%nat then ascii_of_nat (48 + n) else ascii_of_nat (55 + n).

(** [encodeURIComponent]: every byte of the UTF-8 encoding outside the
    unreserved set becomes [%XX] with upper-case hexadecimal digits.
    (A value read from [URLSearchParams] is well-formed Unicode, so the
    [URIError] of a lone surrogate cannot arise.) *)
Fixpoint encodeURIComponent (s : string) : string :=
  match s with
  | EmptyString => EmptyString
  | String c rest =>
      if uri_unreserved c then String c (encodeURIComponent rest)
      else
        let n := nat_of_ascii c in
        String "%" (String (hex_digit (n / 16)) (String (hex_digit (n mod 16))
          (encodeURIComponent rest)))
  end.

(** Object literals of the source, written as values. *)
Definition obj (fields : list (string * value)) : value := VObj fields.

(** A JavaScript string may hold a surrogate without its partner.  In
    the byte string it is the three bytes [ED A0 80] to [ED BF BF] of its
    code point; in well-formed UTF-8 the byte [ED] is followed by a byte
    below [A0]. *)
Fixpoint has_lone_surrogate (s : string) : bool :=
  match s with
  | String a (String b _ as rest) =>
      ((nat_of_ascii a =? 237) && (160 <=? nat_of_ascii b))%nat
      || has_lone_surrogate rest
  | _ => false
  end.

(** The [URIError] of [encodeURIComponent], in the wording of V8. *)
Definition URIError_malformed : js_error := mkError "URIError" "URI malformed".

(** [encodeURIComponent] on a string that a caller is free to choose: it
    throws a [URIError] when the string holds a lone surrogate. *)
Definition encodeURIComponent_or_throw (s : string) : completion string :=
  if has_lone_surrogate s then Throw URIError_malformed
  else Normal (encodeURIComponent s).

End JS.

(* ===================================================================== *)
(** ** JSON texts *)
(* ===================================================================== *)

Module Json.
Import JS.

(** A JSON text, known by the value that [JSON.parse] reads from it. *)
Inductive json_text : Type := Text (reads : value).

Definition JSON_parse (t : json_text) : value :=
  match t with Text v => v end.

(** A number as [JSON.stringify] writes it and [JSON.parse] reads it
    back: [NaN] and the infinities are written [null], [-0] is written
    [0], and a finite number is written so that it reads back as
    itself. *)
Definition written_number (x : spec_float) : value :=
  match x with
  | S754_zero _ => VNum (S754_zero false)
  | S754_finite _ _ _ => VNum x
  | S754_infinity _ | S754_nan => VNull
  end.

(** [JSON.parse (JSON.stringify v)] for a value in an array or under a
    key: [undefined] is written [null] in an array and its property is
    left out of an object. *)
Fixpoint reparse (v : value) : value :=
  match v with
  | VUndefined => VNull
  | VNull => VNull
  | VBool b => VBool b
  | VNum x => written_number x
  | VStr s => VStr s
  | VArr items =>
      VArr ((fix each (l : list value) : list value :=
               match l with
               | [] => []
               | x :: rest => reparse x :: each rest
               end) items)
  | VObj fields =>
      VObj ((fix each (l : list (string * value)) : list (string * value) :=
               match l with
               | [] => []
               | (_, VUndefined) :: rest => each rest
               | (k, x) :: rest => (k, reparse x) :: each rest
               end) fields)
  end.

(** [JSON.stringify v]: no text for [undefined] itself. *)
Definition JSON_stringify (v : value) : option json_text :=
  match v with
  | VUndefined => None
  | _ => Some (Text (reparse v))
  end.

(** A value that [JSON.stringify] writes exactly: without [undefined],
    [NaN], an infinity or [-0] anywhere in it.  Of these [JSON.parse]
    yields only the infinities (for a number too large for a double) and
    [-0]. *)
Fixpoint exact (v : value) : bool :=
  match v with
  | VUndefined => false
  | VNull | VBool _ | VStr _ => true
  | VNum (S754_finite _ _ _) | VNum (S754_zero false) => true
  | VNum _ => false
  | VArr items =>
      (fix each (l : list value) : bool :=
         match l with
         | [] => true
         | x :: rest => exact x && each rest
         end) items
  | VObj fields =>
      (fix each (l : list (string * value)) : bool :=
         match l with
         | [] => true
         | (_, x) :: rest => exact x && each rest
         end) fields
  end.

(** The [TypeError] of [Response.json] for a value without a JSON
    text. *)
Definition not_serializable : js_error :=
  mkError "TypeError" "Value is not JSON serializable".

Section Induction.
Variable P : value -> Prop.
Hypothesis Pundefined : P VUndefined.
Hypothesis Pnull : P VNull.
Hypothesis Pbool : forall b, P (VBool b).
Hypothesis Pnum : forall x, P (VNum x).
Hypothesis Pstr : forall s, P (VStr s).
Hypothesis Parr : forall items, Forall P items -> P (VArr items).
Hypothesis Pobj :
  forall fields, Forall (fun kv => P (snd kv)) fields -> P (VObj fields).

(** Induction on a value through its items and fields. *)
Fixpoint value_induction (v : value) : P v :=
  match v with
  | VUndefined => Pundefined
  | VNull => Pnull
  | VBool b => Pbool b
  | VNum x => Pnum x
  | VStr s => Pstr s
  | VArr items =>
      Parr items
        ((fix each (l : list value) : Forall P l :=
            match l with
            | [] => Forall_nil P
            | x :: rest => Forall_cons x (value_induction x) (each rest)
            end) items)
  | VObj fields =>
      Pobj fields
        ((fix each (l : list (string * value))
            : Forall (fun kv => P (snd kv)) l :=
            match l with
            | [] => Forall_nil _
            | kv :: rest =>
                Forall_cons kv (value_induction (snd kv)) (each rest)
            end) fields)
  end.

End Induction.
End Json.

(* ===================================================================== *)
(** ** Effects: requests, timers and exceptions *)
(* ===================================================================== *)

Module Net.
Import JS.

Inductive http_method : Type := HttpGET | HttpPOST.

(** The arguments of one call of [fetch].  [req_body] is the value the
    caller hands to [JSON.stringify]; its serialisation is the
    engine's. *)
Record request : Type := mkRequest {
  req_method : http_method;
  req_url : string;
  req_headers : list (string * string);
  req_body : option value
}.

(** [fetch(url)]: a GET without headers or body. *)
Definition get_request (url : string) : request :=
  mkRequest HttpGET url [] None.

(** What [fetch] resolves to: the HTTP status and what [response.json()]
    gives, a parsed value or the exception of a body that is not
    JSON. *)
Record response : Type := mkResponse {
  resp_status : nat;
  resp_json : completion value
}.

Inductive fetch_result : Type :=
| Rejects (e : js_error)
| Responds (r : response).

(** The far side of [fetch]: its answer to the [n]-th request of an
    execution (counting from 0) may depend on [n] and on the request. *)
Definition network : Type := nat -> request -> fetch_result.

Inductive event : Type :=
| EvFetch (r : request)
| EvSleep (ms : nat)
| EvConsoleError (label : string) (e : js_error).

Definition trace : Type := list event.

(** The requests of a trace, in the order they were issued. *)
Fixpoint requests (t : trace) : list request :=
  match t with
  | [] => []
  | EvFetch r :: rest => r :: requests rest
  | _ :: rest => requests rest
  end.

Definition fetch_count (t : trace) : nat := length (requests t).

(** A computation reads the trace so far, extends it, and either throws
    or yields a value. *)
Definition M (A : Type) : Type := trace -> completion A * trace.

Definition ret {A} (a : A) : M A := fun t => (Normal a, t).

Definition bind {A B} (m : M A) (k : A -> M B) : M B :=
  fun t =>
    match m t with
    | (Throw e, t') => (Throw e, t')
    | (Normal a, t') => k a t'
    end.

Definition lift {A} (c : completion A) : M A := fun t => (c, t).

(** [try { m } catch (error) { handler error }]. *)
Definition try_catch {A} (m : M A) (handler : js_error -> M A) : M A :=
  fun t =>
    match m t with
    | (Throw e, t') => handler e t'
    | (Normal a, t') => (Normal a, t')
    end.

Definition emit (ev : event) : M unit := fun t => (Normal tt, (t ++ [ev])%list).

(** [await fetch(...)]. *)
Definition fetch (net : network) (r : request) : M response :=
  fun t =>
    match net (fetch_count t) r with
    | Rejects e => (Throw e, (t ++ [EvFetch r])%list)
    | Responds resp => (Normal resp, (t ++ [EvFetch r])%list)
    end.

(** [await response.json()]. *)
Definition json (r : response) : M value := lift (resp_json r).

(** [await new Promise(resolve => setTimeout(resolve, ms))]. *)
Definition sleep (ms : nat) : M unit := emit (EvSleep ms).

Definition console_error (label : string) (e : js_error) : M unit :=
  emit (EvConsoleError label e).

(** A fresh execution starts from the empty trace. *)
Definition run {A} (m : M A) : completion A * trace := m [].

End Net.

Declare Scope js_scope.
Delimit Scope js_scope with js.
Notation "x <- m ;; k" := (Net.bind m (fun x => k))
  (at level 100, m at next level, right associativity) : js_scope.
Notation "m ;;; k" := (Net.bind m (fun _ => k))
  (at level 100, right associativity) : js_scope.

(* ===================================================================== *)
(** ** The tools of [videoAnalysisAgent] *)
(* ===================================================================== *)

Module Agent.
Import JS Net.
Local Open Scope js_scope.

Record analyzeVideo_params : Type := {
  videoUrl : string;
  analysisType : option string
}.

Record session_params : Type := {
  sessionId : string;
  timestamp : option spec_float
}.

Section Tools.
Context `{Engine} (net : network).

(** The body sent by [analyzeVideo]. *)
Definition start_body (videoUrl : string) : value :=
  obj [("video_input", VStr videoUrl);
       ("transcribe_model", VStr "gpt-4o-mini-transcribe");
       ("vision_model", VStr "gpt-4o-mini");
       ("frame_sample_rate", VNum one)].

Definition start_request (videoUrl : string) : request :=
  mkRequest HttpPOST "/api/video-analysis"
            [("Content-Type", "application/json")]
            (Some (start_body videoUrl)).

(** [`/api/video-analysis?sessionId=${session_id}`]. *)
Definition status_url (session_id : value) : string :=
  "/api/video-analysis?sessionId=" ++ ToString session_id.

(** The [while (attempts < maxAttempts)] loop of [analyzeVideo],
    entered with the current values of its variables. *)
Equations? poll (maxAttempts : nat) (session_id : value) (attempts : nat)
  : M value by wf (maxAttempts - attempts) lt :=
  poll maxAttempts session_id attempts with lt_dec attempts maxAttempts := {
    | left Hlt =>
        sleep 5000 ;;;
        statusResponse <- fetch net (get_request (status_url session_id)) ;;
        statusData <- json statusResponse ;;
        status <- lift (property statusData "status") ;;
        if strict_eq_string status "completed" then
          data <- lift (property statusData "data") ;;
          ret (obj [("success", VBool true);
                    ("sessionId", session_id);
                    ("analysis", data)])
        else if strict_eq_string status "error" then
          error <- lift (property statusData "error") ;;
          ret (obj [("error", or_else error (VStr "Analysis failed"))])
        else
          poll maxAttempts session_id (S attempts)
    | right _ =>
        ret (obj [("error", VStr "Analysis timeout")]) }.
Proof. lia. Qed.

(** [analyzeVideo.execute]. *)
Definition analyzeVideo (params : analyzeVideo_params) : M value :=
  let videoUrl := videoUrl params in
  let analysisType :=
    match analysisType params with Some a => a | None => "full" end in
  try_catch
    (startResponse <- fetch net (start_request videoUrl) ;;
     started <- json startResponse ;;
     session_id <- lift (property started "session_id") ;;
     status <- lift (property started "status") ;;
     if negb (truthy session_id) then
       ret (obj [("error", VStr "Failed to start analysis")])
     else
       let attempts := 0 in
       let maxAttempts := 60 in
       poll maxAttempts session_id attempts)
    (fun error =>
       ret (obj [("error", VStr ("Analysis error: " ++ Error_toString error))])).

(** The optional [&timestamp=${timestamp}] suffix of a tool's URL. *)
Definition with_timestamp (url : string) (timestamp : option spec_float) : string :=
  match timestamp with
  | Some ts => url ++ "&timestamp=" ++ Number_toString ts
  | None => url
  end.

(** [getTranscript.execute]. *)
Definition getTranscript (params : session_params) : M value :=
  try_catch
    (let url := "/api/video-analysis?sessionId=" ++ sessionId params
                ++ "&action=transcript" in
     let url := with_timestamp url (timestamp params) in
     response <- fetch net (get_request url) ;;
     data <- json response ;;
     ret (obj [("success", VBool true); ("transcript", data)]))
    (fun error =>
       ret (obj [("error",
                  VStr ("Failed to get transcript: " ++ Error_toString error))])).

(** [getSceneDescription.execute]. *)
Definition getSceneDescription (params : session_params) : M value :=
  try_catch
    (let url := "/api/video-analysis?sessionId=" ++ sessionId params
                ++ "&action=scenes" in
     let url := with_timestamp url (timestamp params) in
     response <- fetch net (get_request url) ;;
     data <- json response ;;
     ret (obj [("success", VBool true); ("scenes", data)]))
    (fun error =>
       ret (obj [("error",
                  VStr ("Failed to get scenes: " ++ Error_toString error))])).

(** [compareAudioVisual.execute]. *)
Definition compareAudioVisual (sessionId : string) : M value :=
  try_catch
    (response <- fetch net (get_request
        ("/api/video-analysis?sessionId=" ++ sessionId ++ "&action=comparison")) ;;
     data <- json response ;;
     ret (obj [("success", VBool true); ("comparison", data)]))
    (fun error =>
       ret (obj [("error",
                  VStr ("Failed to get comparison: " ++ Error_toString error))])).

(** [searchVideoContent.execute].  The URL is built before [fetch] is
    called, inside the [try]: a query that cannot be encoded ends the
    call there. *)
Definition searchVideoContent (sessionId query : string) : M value :=
  try_catch
    (encoded <- lift (encodeURIComponent_or_throw query) ;;
     response <- fetch net (get_request
        ("/api/video-analysis?sessionId=" ++ sessionId ++ "&action=search&query="
         ++ encoded)) ;;
     data <- json response ;;
     ret (obj [("success", VBool true); ("results", data)]))
    (fun error =>
       ret (obj [("error", VStr ("Search failed: " ++ Error_toString error))])).

(** [if (sessionId)] on an optional string: present and not empty. *)
Definition session_given (sessionId : option string) : option string :=
  match sessionId with
  | Some s => if String.eqb s "" then None else Some s
  | None => None
  end.

(** [processVoiceCommand.execute].  The [tool] constructor comes from
    [../types], which is outside the two source files; the [execute] of
    a tool is taken to be the function handed to [tool]. *)
Definition processVoiceCommand (command : string) (sessionId : option string)
  : M value :=
  let commandLower := toLowerCase command in
  if includes commandLower "play" || includes commandLower "resume" then
    ret (obj [("action", VStr "play"); ("message", VStr "Playing video")])
  else if includes commandLower "pause" then
    ret (obj [("action", VStr "pause"); ("message", VStr "Video paused")])
  else if includes commandLower "stop" then
    ret (obj [("action", VStr "stop"); ("message", VStr "Video stopped")])
  else if includes commandLower "describe" then
    match session_given sessionId with
    | Some sessionId =>
        response <- getSceneDescription
                      {| sessionId := sessionId; timestamp := None |} ;;
        ret (obj [("action", VStr "describe"); ("data", response)])
    | None =>
        ret (obj [("action", VStr "describe");
                  ("message", VStr "No active session")])
    end
  else if includes commandLower "transcript"
          || includes commandLower "transcribe" then
    match session_given sessionId with
    | Some sessionId =>
        response <- getTranscript
                      {| sessionId := sessionId; timestamp := None |} ;;
        ret (obj [("action", VStr "transcript"); ("data", response)])
    | None =>
        ret (obj [("action", VStr "transcript");
                  ("message", VStr "No active session")])
    end
  else
    ret (obj [("error", VStr "Command not recognized")]).

End Tools.
End Agent.

(* ===================================================================== *)
(** ** The route [/api/video-analysis] *)
(* ===================================================================== *)

Module Route.
Import JS Json Net.
Local Open Scope js_scope.

(** What the handlers read of a [NextRequest]: the decoded query
    parameters of its URL, in order, and what [request.json()] gives. *)
Record NextRequest : Type := {
  searchParams : list (string * string);
  request_json : completion value
}.

(** A response: its status and its body, the JSON text that went out. *)
Record NextResponse : Type := {
  status : nat;
  body : json_text
}.

(** [NextResponse.json(data)] answers 200 and [NextResponse.json(data,
    { status })] answers [status], with [JSON.stringify(data)] as the
    body; for a value without a JSON text it throws. *)
Definition NextResponse_json (data : value) (init : option nat)
  : completion NextResponse :=
  match JSON_stringify data with
  | Some text =>
      Normal {| status := match init with Some s => s | None => 200 end;
                body := text |}
  | None => Throw not_serializable
  end.

(** [URLSearchParams.get]: the first value of the name, or [null]. *)
Fixpoint searchParams_get (params : list (string * string)) (name : string)
  : option string :=
  match params with
  | [] => None
  | (k, v) :: rest => if String.eqb k name then Some v else searchParams_get rest name
  end.

(** A string-or-null used as a condition: present and not empty. *)
Definition nonempty (s : option string) : option string :=
  match s with
  | Some x => if String.eqb x "" then None else Some x
  | None => None
  end.

(** [action === 'lit']. *)
Definition action_is (action : option string) (lit : string) : bool :=
  match action with
  | Some a => String.eqb a lit
  | None => false
  end.

Section Handlers.
(** [process.env.PYTHON_API_URL] and the analysis backend. *)
Context (env_PYTHON_API_URL : option string) (net : network).

Definition PYTHON_API_URL : string :=
  match nonempty env_PYTHON_API_URL with
  | Some url => url
  | None => "http://localhost:8000"
  end.

(** The [endpoint] the GET handler builds. *)
Definition endpoint_of (params : list (string * string)) (sessionId : string)
  : string :=
  let action := searchParams_get params "action" in
  let endpoint := "/api/status/" ++ sessionId in
  if action_is action "transcript" then
    let endpoint := "/api/transcript/" ++ sessionId in
    let timestamp := searchParams_get params "timestamp" in
    match nonempty timestamp with
    | Some timestamp => endpoint ++ "?timestamp=" ++ timestamp
    | None => endpoint
    end
  else if action_is action "scenes" then
    let endpoint := "/api/scenes/" ++ sessionId in
    let timestamp := searchParams_get params "timestamp" in
    match nonempty timestamp with
    | Some timestamp => endpoint ++ "?timestamp=" ++ timestamp
    | None => endpoint
    end
  else if action_is action "comparison" then
    "/api/comparison/" ++ sessionId
  else if action_is action "search" then
    let query := searchParams_get params "query" in
    "/api/search?session_id=" ++ sessionId ++ "&query="
    ++ encodeURIComponent (match nonempty query with Some q => q | None => "" end)
  else endpoint.

(** The exported [GET]. *)
Definition GET (request : NextRequest) : M NextResponse :=
  let sessionId := searchParams_get (searchParams request) "sessionId" in
  match nonempty sessionId with
  | None =>
      lift (NextResponse_json (obj [("error", VStr "Session ID required")])
                              (Some 400))
  | Some sessionId =>
      try_catch
        (let endpoint := endpoint_of (searchParams request) sessionId in
         response <- fetch net (get_request (PYTHON_API_URL ++ endpoint)) ;;
         data <- json response ;;
         lift (NextResponse_json data None))
        (fun error =>
           console_error "Video analysis fetch error:" error ;;;
           lift (NextResponse_json
                   (obj [("error", VStr "Failed to fetch analysis data")])
                   (Some 500)))
  end.

(** The exported [POST]. *)
Definition POST (request : NextRequest) : M NextResponse :=
  try_catch
    (body <- lift (request_json request) ;;
     response <- fetch net
       (mkRequest HttpPOST (PYTHON_API_URL ++ "/api/analyze")
                  [("Content-Type", "application/json")] (Some body)) ;;
     data <- json response ;;
     lift (NextResponse_json data None))
    (fun error =>
       console_error "Video analysis error:" error ;;;
       lift (NextResponse_json
               (obj [("error", VStr "Failed to start video analysis")])
               (Some 500))).

End Handlers.
End Route.

(* ===================================================================== *)
(** ** Vocabulary of the statements *)
(* ===================================================================== *)

Module Spec.
Import JS Json Net Agent.

Section Polling.
Context `{Engine}.

(** The status query of the polling loop for a session identifier. *)
Definition status_request (session_id : value) : request :=
  get_request (status_url session_id).

(** What the loop adds to the trace in [n] rounds: a 5000 ms wait and
    a status query per round. *)
Fixpoint poll_events (session_id : value) (n : nat) : trace :=
  match n with
  | 0 => []
  | S n' =>
      EvSleep 5000 :: EvFetch (status_request session_id)
      :: poll_events session_id n'
  end.

(** The JSON value a reply carries, when the request was answered and
    the body parsed. *)
Definition parsed (r : fetch_result) : option value :=
  match r with
  | Responds resp =>
      match resp_json resp with
      | Normal v => Some v
      | Throw _ => None
      end
  | Rejects _ => None
  end.

(** The [status] a reply reports, when there is one to read. *)
Definition reported_status (r : fetch_result) : option value :=
  match parsed r with
  | Some v =>
      match property v "status" with
      | Normal s => Some s
      | Throw _ => None
      end
  | None => None
  end.

(** The reply reports a status that is neither ['completed'] nor
    ['error']: the session is still pending. *)
Definition reports_pending (r : fetch_result) : bool :=
  match reported_status r with
  | Some s => negb (strict_eq_string s "completed")
              && negb (strict_eq_string s "error")
  | None => false
  end.

(** The ways the loop can end: an exception, the success object
    carrying the session identifier, or an error object. *)
Inductive poll_outcome (sid : value) : completion value -> Prop :=
| po_throw e : poll_outcome sid (Throw e)
| po_success data :
    poll_outcome sid (Normal (obj [("success", VBool true);
                                   ("sessionId", sid);
                                   ("analysis", data)]))
| po_error msg : poll_outcome sid (Normal (obj [("error", msg)])).

End Polling.

(** What the [catch] clause of [analyzeVideo] makes of a completion of
    its [try] block. *)
Definition caught (c : completion value * trace) : completion value * trace :=
  match c with
  | (Throw error, t) =>
      (Normal (obj [("error",
                     VStr ("Analysis error: " ++ Error_toString error))]), t)
  | (Normal v, t) => (Normal v, t)
  end.

(** *** Voice commands, in the words of the specification *)

Inductive intent : Type :=
| Play | Pause | Stop | Describe | Transcript | Unrecognized.

Definition upper_case : string := "ABCDEFGHIJKLMNOPQRSTUVWXYZ".

Definition lower_case : string := "abcdefghijklmnopqrstuvwxyz".

(** The letters, each as the pair of its upper-case and its lower-case
    form. *)
Definition letters : list (ascii * ascii) :=
  combine (list_ascii_of_string upper_case) (list_ascii_of_string lower_case).

(** Two bytes are the same letter up to case: the same byte, or the
    upper-case and the lower-case form of one letter. *)
Definition same_letter (a b : ascii) : Prop :=
  a = b \/ In (a, b) letters \/ In (b, a) letters.

(** Case-insensitive substring matching: some contiguous part of the
    command spells the keyword, letter by letter, up to case. *)
Definition mentions (command keyword : string) : Prop :=
  exists before word after,
    command = before ++ word ++ after /\
    Forall2 same_letter (list_ascii_of_string word)
                        (list_ascii_of_string keyword).

(** The fixed priority order of the dispatcher. *)
Definition priority : list (list string * intent) :=
  [ (["play"; "resume"], Play);
    (["pause"], Pause);
    (["stop"], Stop);
    (["describe"], Describe);
    (["transcript"; "transcribe"], Transcript) ].

(** First match wins: the intent of the first rule one of whose
    keywords the command mentions, [Unrecognized] when there is none. *)
Inductive first_match (command : string)
  : list (list string * intent) -> intent -> Prop :=
| fm_none : first_match command [] Unrecognized
| fm_here keywords i rest :
    Exists (mentions command) keywords ->
    first_match command ((keywords, i) :: rest) i
| fm_later keywords i rest j :
    ~ Exists (mentions command) keywords ->
    first_match command rest j ->
    first_match command ((keywords, i) :: rest) j.

(** The same classification as a program: [mentions] decided on the
    lowered command, rules tried in order. *)
Definition mentions_b (command keyword : string) : bool :=
  includes (toLowerCase command) keyword.

Fixpoint classify (command : string) (rules : list (list string * intent))
  : intent :=
  match rules with
  | [] => Unrecognized
  | (keywords, i) :: rest =>
      if existsb (mentions_b command) keywords then i
      else classify command rest
  end.

(** Keywords are written in lower case. *)
Definition lower_case_rules (rules : list (list string * intent)) : Prop :=
  Forall (fun rule => Forall (fun kw => toLowerCase kw = kw) (fst rule)) rules.

(** How a result of [processVoiceCommand] shows its intent: the
    [action] tag, or the error of an unrecognized command. *)
Definition shows (result : value) (i : intent) : Prop :=
  match i with
  | Play =>
      result = obj [("action", VStr "play"); ("message", VStr "Playing video")]
  | Pause =>
      result = obj [("action", VStr "pause"); ("message", VStr "Video paused")]
  | Stop =>
      result = obj [("action", VStr "stop"); ("message", VStr "Video stopped")]
  | Describe =>
      exists rest, result = obj (("action", VStr "describe") :: rest)
  | Transcript =>
      exists rest, result = obj (("action", VStr "transcript") :: rest)
  | Unrecognized =>
      result = obj [("error", VStr "Command not recognized")]
  end.

(** *** The proxy route *)

(** The part of a backend endpoint before the session identifier, by
    action: one of five templates, status when the action is absent or
    unknown. *)
Definition endpoint_head (action : option string) : string :=
  match action with
  | Some a =>
      if String.eqb a "transcript" then "/api/transcript/"
      else if String.eqb a "scenes" then "/api/scenes/"
      else if String.eqb a "comparison" then "/api/comparison/"
      else if String.eqb a "search" then "/api/search?session_id="
      else "/api/status/"
  | None => "/api/status/"
  end.

Definition default_string (s : option string) : string :=
  match s with Some x => x | None => "" end.

(** The part of a backend endpoint after the session identifier: the
    timestamp of a transcript or scenes query when one is given, the
    encoded query of a search, nothing otherwise. *)
Definition endpoint_tail (params : list (string * string)) : string :=
  let timestamp := default_string (Route.searchParams_get params "timestamp") in
  let with_time := if String.eqb timestamp "" then ""
                   else "?timestamp=" ++ timestamp in
  match Route.searchParams_get params "action" with
  | Some a =>
      if String.eqb a "transcript" then with_time
      else if String.eqb a "scenes" then with_time
      else if String.eqb a "comparison" then ""
      else if String.eqb a "search" then
        "&query=" ++ encodeURIComponent
                       (default_string (Route.searchParams_get params "query"))
      else ""
  | None => ""
  end.

(** The URL the GET handler fetches for a session identifier. *)
Definition backend_url (env : option string) (request : Route.NextRequest)
    (sessionId : string) : string :=
  Route.PYTHON_API_URL env
  ++ Route.endpoint_of (Route.searchParams request) sessionId.

(** The session identifier a request carries: present and not empty. *)
Definition session_of (request : Route.NextRequest) : option string :=
  Route.nonempty (Route.searchParams_get (Route.searchParams request)
                                         "sessionId").

(** The JSON text a handler of the route makes of a backend answer: none
    when the request was rejected, the body was not JSON, or the parsed
    value has no JSON text. *)
Definition relayed (r : fetch_result) : option json_text :=
  match r with
  | Responds resp =>
      match resp_json resp with
      | Normal v => JSON_stringify v
      | Throw _ => None
      end
  | Rejects _ => None
  end.

(** The claim that the GET handler hands on the backend's HTTP status
    together with its body. *)
Definition passes_status_and_body (env : option string) (net : network)
    (request : Route.NextRequest) : Prop :=
  forall sessionId resp v,
    session_of request = Some sessionId ->
    net 0 (get_request (backend_url env request sessionId)) = Responds resp ->
    resp_json resp = Normal v ->
    fst (run (Route.GET env net request))
    = Normal {| Route.status := resp_status resp; Route.body := Text v |}.

(** The claim that the GET handler relays the backend's JSON body
    unmodified: what a client parses from the response is the value the
    backend's body parsed to. *)
Definition relays_unmodified (env : option string) (net : network)
    (request : Route.NextRequest) : Prop :=
  forall sessionId v,
    session_of request = Some sessionId ->
    parsed (net 0 (get_request (backend_url env request sessionId))) = Some v ->
    exists res,
      fst (run (Route.GET env net request)) = Normal res /\
      JSON_parse (Route.body res) = v.

(** The session identifier a start answer contains: its [session_id]
    when the answer is an object that has one. *)
Definition session_id_in (started : value) : value :=
  match started with
  | VObj fields => lookup "session_id" fields
  | _ => VUndefined
  end.

(** The claim that every start answer without a session identifier makes
    [analyzeVideo] return ['Failed to start analysis'] after the start
    request alone. *)
Definition start_fails_without_id `{Engine} (net : network)
    (params : analyzeVideo_params) : Prop :=
  forall started,
    parsed (net 0 (start_request (videoUrl params))) = Some started ->
    truthy (session_id_in started) = false ->
    run (analyzeVideo net params) =
    (Normal (obj [("error", VStr "Failed to start analysis")]),
     [EvFetch (start_request (videoUrl params))]).

(** *** Percent-encoding, in the words of the URI standard *)

(** The unreserved marks of [encodeURIComponent]. *)
Definition unreserved_marks : string :=
  "ABCDEFGHIJKLMNOPQRSTUVWXYZabcdefghijklmnopqrstuvwxyz0123456789-_.!~*'()".

Definition hex_digits : string := "0123456789ABCDEF".

Definition is_unreserved (c : ascii) : Prop :=
  In c (list_ascii_of_string unreserved_marks).

(** [encoded] is the percent-encoding of a string: an unreserved byte
    stands for itself, and any other byte is written as [%] and its two
    hexadecimal digits, high then low, in upper case. *)
Inductive percent_encoded : string -> string -> Prop :=
| pe_end : percent_encoded "" ""
| pe_keep c s e :
    is_unreserved c ->
    percent_encoded s e ->
    percent_encoded (String c s) (String c e)
| pe_escape c s e high low :
    ~ is_unreserved c ->
    String.get (nat_of_ascii c / 16) hex_digits = Some high ->
    String.get (nat_of_ascii c mod 16) hex_digits = Some low ->
    percent_encoded s e ->
    percent_encoded (String c s) (String "%" (String high (String low e))).

End Spec.

(* ===================================================================== *)
(** ** Sample environments *)
(* ===================================================================== *)

Module Samples.
Import JS Net Agent.

(** An engine for running the examples; they format no number and read
    no property of [null]. *)
Definition engine : Engine :=
  {| Number_toString := fun _ => "NaN";
     TypeError_message := fun _ p =>
       "Cannot read properties of null (reading '" ++ p ++ "')" |}.

Definition json_reply (code : nat) (v : value) : fetch_result :=
  Responds (mkResponse code (Normal v)).

Definition started_reply : fetch_result :=
  json_reply 200 (obj [("session_id", VStr "abc"); ("status", VStr "pending")]).

Definition pending_reply : fetch_result :=
  json_reply 200 (obj [("status", VStr "pending")]).

Definition params : analyzeVideo_params :=
  {| videoUrl := "https://example.com/v.mp4"; analysisType := None |}.

(** Started as session [abc]; pending until the third status query,
    which reports completion. *)
Definition completes_third : network :=
  fun n _ =>
    match n with
    | 0 => started_reply
    | 3 => json_reply 200 (obj [("status", VStr "completed");
                                ("data", obj [("summary", VStr "ok")])])
    | _ => pending_reply
    end.

(** Started as session [abc] and pending for ever. *)
Definition never_completes : network :=
  fun n _ => match n with 0 => started_reply | _ => pending_reply end.


(** The start call answers without a session identifier. *)
Definition refuses_start : network :=
  fun _ _ => json_reply 200 (obj [("status", VStr "rejected")]).

(** A backend that knows no session: 404 with a JSON body. *)
Definition not_found_body : value := obj [("detail", VStr "Session not found")].

Definition not_found : network := fun _ _ => json_reply 404 not_found_body.

Definition status_of_abc : Route.NextRequest :=
  {| Route.searchParams := [("sessionId", "abc")];
     Route.request_json := Normal VNull |}.

Definition search_cat : Route.NextRequest :=
  {| Route.searchParams := [("sessionId", "abc"); ("action", "search");
                            ("query", "cat")];
     Route.request_json := Normal VNull |}.

End Samples.

(* ===================================================================== *)
(** ** The display component [VideoAnalysisDisplay] *)
(* ===================================================================== *)

Module Display.
Import JS Net.
Local Open Scope js_scope.

(** Of the component, the function [fetchAnalysisData] is modelled: one
    call of it, as a transition of the two state variables it writes,
    [analysisData] ([null] at first) and [loading].  The interval that
    repeats the call and the rendering are left out. *)
Record display_state : Type := {
  analysisData : value;
  loading : bool
}.

(** [useState(null)] and [useState(false)]. *)
Definition initial_state : display_state :=
  {| analysisData := VNull; loading := false |}.

Definition setAnalysisData (data : value) (st : display_state) : display_state :=
  {| analysisData := data; loading := loading st |}.

Definition setLoading (b : bool) (st : display_state) : display_state :=
  {| analysisData := analysisData st; loading := b |}.

(** The [sessionId] prop used as a condition: present and not empty. *)
Definition session_prop (sessionId : option string) : option string :=
  match sessionId with
  | Some s => if String.eqb s "" then None else Some s
  | None => None
  end.

(** A promise that is not awaited yet: [fetch(...)] issues the request and
    keeps its outcome. *)
Definition fetch_promise (net : network) (r : request) : M fetch_result :=
  fun t => (Normal (net (fetch_count t) r), (t ++ [EvFetch r])%list).

(** The reasons of the promises that reject, in array order. *)
Fixpoint rejections {A} (settled : list (completion A)) : list js_error :=
  match settled with
  | [] => []
  | Throw e :: rest => e :: rejections rest
  | Normal _ :: rest => rejections rest
  end.

(** The values of the promises that fulfil, in array order. *)
Fixpoint fulfilments {A} (settled : list (completion A)) : list A :=
  match settled with
  | [] => []
  | Throw _ :: rest => fulfilments rest
  | Normal a :: rest => a :: fulfilments rest
  end.

(** A fetch promise as a completion of its response. *)
Definition settle (r : fetch_result) : completion response :=
  match r with
  | Rejects e => Throw e
  | Responds resp => Normal resp
  end.

Section Component.
(** Which of several rejections [Promise.all] reports is the one that
    settles first; the source does not fix the order, [first_settled]
    stands for it. *)
Context `{Engine} (net : network) (first_settled : list js_error -> js_error).

(** [await Promise.all([...])]: the array of values when all promises
    fulfil, the reason of a rejection otherwise. *)
Definition Promise_all {A} (settled : list (completion A)) : M (list A) :=
  match rejections settled with
  | [] => ret (fulfilments settled)
  | reasons => lift (Throw (first_settled reasons))
  end.

(** [fetchAnalysisData], started in state [st]; the result is the state
    after its [finally] clause. *)
Definition fetchAnalysisData (sessionId : option string) (st : display_state)
  : M display_state :=
  match session_prop sessionId with
  | None => ret st
  | Some sessionId =>
      let st := setLoading true st in
      st' <-
        try_catch
          (statusResponse <-
             fetch net (get_request ("/api/video-analysis?sessionId=" ++ sessionId)) ;;
           statusData <- json statusResponse ;;
           status <- lift (property statusData "status") ;;
           completed <-
             (if strict_eq_string status "completed" then
                data <- lift (property statusData "data") ;;
                ret (if truthy data then Some data else None)
              else ret None) ;;
           match completed with
           | Some data =>
               ret (setLoading false (setAnalysisData data st))
           | None =>
               transcriptRes <- fetch_promise net (get_request
                 ("/api/video-analysis?sessionId=" ++ sessionId
                  ++ "&action=transcript")) ;;
               scenesRes <- fetch_promise net (get_request
                 ("/api/video-analysis?sessionId=" ++ sessionId
                  ++ "&action=scenes")) ;;
               comparisonRes <- fetch_promise net (get_request
                 ("/api/video-analysis?sessionId=" ++ sessionId
                  ++ "&action=comparison")) ;;
               responses <- Promise_all [settle transcriptRes; settle scenesRes;
                                         settle comparisonRes] ;;
               bodies <- Promise_all (map resp_json responses) ;;
               ret (setAnalysisData
                      (obj [("status", status);
                            ("transcript", nth 0 bodies VUndefined);
                            ("scenes", nth 1 bodies VUndefined);
                            ("comparison", nth 2 bodies VUndefined)])
                      st)
           end)
          (fun error =>
             console_error "Error fetching analysis data:" error ;;;
             ret st) ;;
      ret (setLoading false st')
  end.

End Component.
End Display.

(* ===================================================================== *)
(** ** Further vocabulary *)
(* ===================================================================== *)

Module Extra.
Import JS Net Agent Spec.

(** The time a trace spends waiting, in milliseconds. *)
Fixpoint total_sleep (t : trace) : nat :=
  match t with
  | [] => 0
  | EvSleep ms :: rest => ms + total_sleep rest
  | _ :: rest => total_sleep rest
  end.

(** The exception that reading property [p] of a reply raises: the
    reason of a rejected request, of a body that is not JSON, or the
    [TypeError] of a [null] body. *)
Definition reply_exception `{Engine} (r : fetch_result) (p : string)
  : option js_error :=
  match r with
  | Rejects e => Some e
  | Responds resp =>
      match resp_json resp with
      | Throw e => Some e
      | Normal v =>
          match property v p with
          | Throw e => Some e
          | Normal _ => None
          end
      end
  end.

(** The same network with every HTTP status replaced by 200. *)
Definition forget_status (net : network) : network :=
  fun n r =>
    match net n r with
    | Rejects e => Rejects e
    | Responds resp => Responds (mkResponse 200 (resp_json resp))
    end.

(** Every byte of a string satisfies a test. *)
Fixpoint string_forall (f : ascii -> bool) (s : string) : bool :=
  match s with
  | EmptyString => true
  | String c rest => f c && string_forall f rest
  end.

(** The bytes an encoded component is made of: unreserved ones and the
    percent sign. *)
Definition uri_safe (c : ascii) : bool := uri_unreserved c || Ascii.eqb c "%".

(** The bytes that delimit the parts of a URL and of its query. *)
Definition delimiter (c : ascii) : bool :=
  existsb (Ascii.eqb c) ["&"; "="; "#"; "?"; "/"; "+"; " "; ":"; ";"; ","]%char.

(** The value of a hexadecimal digit as [encodeURIComponent] writes
    it. *)
Definition hex_value (c : ascii) : nat :=
  let n := nat_of_ascii c in
  if (n <? 58)%nat then n - 48 else n - 55.

(** The error object a tool returns from its [catch] clause. *)
Definition tool_error (prefix : string) (e : js_error) : value :=
  obj [("error", VStr (prefix ++ Error_toString e))].

(** What a reply gives to a tool that awaits it and parses its body. *)
Definition body_of (r : fetch_result) : completion value :=
  match r with
  | Rejects e => Throw e
  | Responds resp => resp_json resp
  end.

(** The result of a retrieval tool for a reply: the parsed body under
    [success] and the tool's key, or the tool's error. *)
Definition wrapped (key prefix : string) (r : fetch_result) : value :=
  match body_of r with
  | Normal data => obj [("success", VBool true); (key, data)]
  | Throw e => tool_error prefix e
  end.

(** The requests a voice command leads to: one for a describe or
    transcript command when a session is given, none otherwise. *)
Definition voice_requests (command : string) (sessionId : option string)
  : list request :=
  match classify command priority, session_given sessionId with
  | Describe, Some s =>
      [get_request ("/api/video-analysis?sessionId=" ++ s ++ "&action=scenes")]
  | Transcript, Some s =>
      [get_request ("/api/video-analysis?sessionId=" ++ s ++ "&action=transcript")]
  | _, _ => []
  end.

(** What a client of the route receives for a run of one of its
    handlers: the status, and as the body what [JSON.parse] reads from
    the JSON text that the handler sent. *)
Definition proxy_reply (r : completion Route.NextResponse * trace) : fetch_result :=
  match fst r with
  | Normal res =>
      Responds (mkResponse (Route.status res)
                           (Normal (Json.JSON_parse (Route.body res))))
  | Throw e => Rejects e
  end.

(** The text that [fetch] sends as the body of a request: [req_body]
    holds the argument of [JSON.stringify]. *)
Definition sent_text (r : request) : option Json.json_text :=
  match req_body r with
  | Some v => Json.JSON_stringify v
  | None => None
  end.

(** The GET handler answers with one of its own errors: the session
    identifier is missing, or forwarding to the backend failed. *)
Definition proxy_failed (env : option string) (backend : network)
    (request : Route.NextRequest) : bool :=
  match session_of request with
  | None => true
  | Some s =>
      match parsed (backend 0 (get_request (backend_url env request s))) with
      | Some _ => false
      | None => true
      end
  end.

(** The status query of the display component. *)
Definition display_status (s : string) : request :=
  get_request ("/api/video-analysis?sessionId=" ++ s).

(** Its three component queries, in the order they are issued. *)
Definition display_components (s : string) : list request :=
  [get_request ("/api/video-analysis?sessionId=" ++ s ++ "&action=transcript");
   get_request ("/api/video-analysis?sessionId=" ++ s ++ "&action=scenes");
   get_request ("/api/video-analysis?sessionId=" ++ s ++ "&action=comparison")].

(** The test of the display component on a status answer:
    [statusData.status === 'completed' && statusData.data]. *)
Definition ready (statusData : value) : bool :=
  strict_eq_string (lookup "status" match statusData with
                                    | VObj fields => fields
                                    | _ => []
                                    end) "completed"
  && truthy (lookup "data" match statusData with
                           | VObj fields => fields
                           | _ => []
                           end).

(** The console messages of a trace. *)
Fixpoint console_errors (t : trace) : list js_error :=
  match t with
  | [] => []
  | EvConsoleError _ e :: rest => e :: console_errors rest
  | _ :: rest => console_errors rest
  end.

(** The actions with an endpoint of their own. *)
Definition known_action (a : string) : bool :=
  existsb (String.eqb a) ["transcript"; "scenes"; "comparison"; "search"].

End Extra.

(* ===================================================================== *)
(** ** Further sample environments *)
(* ===================================================================== *)

Module MoreSamples.
Import JS Net Agent Samples.

Definition failed_to_fetch : js_error := mkError "TypeError" "Failed to fetch".

(** The start call is answered with the JSON text [null]. *)
Definition null_start : network := fun _ _ => json_reply 200 VNull.

(** A backend whose body has a number too large for a double, which
    [JSON.parse] reads as [Infinity], and a [-0]. *)
Definition overflowing_body : value :=
  obj [("score", VNum (S754_infinity false)); ("offset", VNum (S754_zero true))].

Definition overflowing : network := fun _ _ => json_reply 200 overflowing_body.

Definition search_cat_and_dog : Route.NextRequest :=
  {| Route.searchParams := [("sessionId", "abc"); ("action", "search");
                            ("query", "cat & dog")];
     Route.request_json := Normal VNull |}.

(** Started as session [abc]; the second status query is rejected. *)
Definition rejects_second : network :=
  fun n _ =>
    match n with
    | 0 => started_reply
    | 2 => Rejects failed_to_fetch
    | _ => pending_reply
    end.

(** No request gets through. *)
Definition offline : network := fun _ _ => Rejects failed_to_fetch.

(** An analysis that is done: every answer reports completion. *)
Definition done_body : value :=
  obj [("status", VStr "completed");
       ("data", obj [("summary", VStr "ok")])].

Definition done : network := fun _ _ => json_reply 200 done_body.

(** A client of the route whose backend is offline: the analysis was
    started as session [abc], and every status query is answered by the
    GET handler with its own error. *)
Definition behind_offline_proxy : network :=
  fun n _ =>
    match n with
    | 0 => started_reply
    | _ => Extra.proxy_reply (run (Route.GET None offline status_of_abc))
    end.

Definition unknown_action : Route.NextRequest :=
  {| Route.searchParams := [("sessionId", "abc"); ("action", "Scenes");
                            ("timestamp", "12")];
     Route.request_json := Normal VNull |}.

End MoreSamples.

(* ===================================================================== *)
(** ** The polling loop *)
(* ===================================================================== *)

Module PollFacts.
Import JS Net Agent Spec.

Lemma requests_app (t u : trace) :
  requests (t ++ u)%list = (requests t ++ requests u)%list.
Proof.
  induction t as [|ev t IH]; simpl; [reflexivity|].
  destruct ev; simpl; rewrite ?IH; reflexivity.
Qed.

Lemma fetch_count_app (t u : trace) :
  fetch_count (t ++ u)%list = fetch_count t + fetch_count u.
Proof. unfold fetch_count. rewrite requests_app, length_app. reflexivity. Qed.

Section Loop.
Context `{Engine} (net : network).

Lemma requests_poll_events sid n :
  requests (poll_events sid n) = repeat (status_request sid) n.
Proof. induction n as [|n IH]; simpl; [|rewrite IH]; reflexivity. Qed.

Lemma fetch_count_poll_events sid n : fetch_count (poll_events sid n) = n.
Proof.
  unfold fetch_count. rewrite requests_poll_events. apply repeat_length.
Qed.

(** The loop test fails: the loop is left and the timeout returned. *)
Lemma poll_exit m sid a t :
  ~ a < m ->
  poll net m sid a t = (Normal (obj [("error", VStr "Analysis timeout")]), t).
Proof.
  intros Hge. rewrite poll_equation_1.
  destruct (lt_dec a m) as [Hlt|Hge']; [contradiction|reflexivity].
Qed.

(** One round of the loop, by what the status query is answered. *)
Lemma poll_round m sid a t :
  a < m ->
  poll net m sid a t =
  let t' := (t ++ [EvSleep 5000; EvFetch (status_request sid)])%list in
  match net (fetch_count t) (status_request sid) with
  | Rejects e => (Throw e, t')
  | Responds resp =>
      match resp_json resp with
      | Throw e => (Throw e, t')
      | Normal statusData =>
          match property statusData "status" with
          | Throw e => (Throw e, t')
          | Normal status =>
              if strict_eq_string status "completed" then
                match property statusData "data" with
                | Throw e => (Throw e, t')
                | Normal data =>
                    (Normal (obj [("success", VBool true);
                                  ("sessionId", sid);
                                  ("analysis", data)]), t')
                end
              else if strict_eq_string status "error" then
                match property statusData "error" with
                | Throw e => (Throw e, t')
                | Normal error =>
                    (Normal (obj [("error",
                                   or_else error (VStr "Analysis failed"))]),
                     t')
                end
              else poll net m sid (S a) t'
          end
      end
  end.
Proof.
  intros Hlt. rewrite poll_equation_1.
  destruct (lt_dec a m) as [Hlt'|Hge]; [|contradiction].
  cbn [poll_unfold_clause_1].
  unfold bind, sleep, emit, fetch, json, lift, ret.
  replace (fetch_count (t ++ [EvSleep 5000])%list) with (fetch_count t)
    by (rewrite fetch_count_app; cbn; lia).
  rewrite <- app_assoc. cbn [app].
  fold (status_request sid).
  destruct (net (fetch_count t) (status_request sid)) as [e|resp];
    [reflexivity|].
  destruct (resp_json resp) as [e|statusData]; [reflexivity|].
  destruct (property statusData "status") as [e|status]; [reflexivity|].
  destruct (strict_eq_string status "completed").
  - destruct (property statusData "data"); reflexivity.
  - destruct (strict_eq_string status "error"); [|reflexivity].
    destruct (property statusData "error"); reflexivity.
Qed.

(** A round whose query reports a pending session goes round again. *)
Lemma poll_pending m sid a t :
  a < m ->
  reports_pending (net (fetch_count t) (status_request sid)) = true ->
  poll net m sid a t =
  poll net m sid (S a) (t ++ poll_events sid 1)%list.
Proof.
  intros Hlt Hp. rewrite (poll_round m sid a t Hlt). cbn zeta.
  unfold reports_pending, reported_status, parsed in Hp.
  destruct (net (fetch_count t) (status_request sid)) as [e|resp];
    [discriminate|].
  destruct (resp_json resp) as [e|statusData]; [discriminate|].
  destruct (property statusData "status") as [e|status]; [discriminate|].
  apply andb_true_iff in Hp as [Hc He].
  apply negb_true_iff in Hc, He. rewrite Hc, He. reflexivity.
Qed.

(** [n] pending rounds in a row. *)
Lemma poll_pending_rounds n : forall m sid a t,
  a + n <= m ->
  (forall j, j < n ->
     reports_pending (net (fetch_count t + j) (status_request sid)) = true) ->
  poll net m sid a t =
  poll net m sid (a + n) (t ++ poll_events sid n)%list.
Proof.
  induction n as [|n IH]; intros m sid a t Hle Hp.
  - rewrite Nat.add_0_r, app_nil_r. reflexivity.
  - rewrite (poll_pending m sid a t); [|lia|].
    + rewrite IH; [| lia |].
      * rewrite <- app_assoc. f_equal. lia.
      * intros j Hj. rewrite fetch_count_app, fetch_count_poll_events.
        replace (fetch_count t + 1 + j) with (fetch_count t + S j) by lia.
        apply Hp. lia.
    + specialize (Hp 0). rewrite Nat.add_0_r in Hp. apply Hp. lia.
Qed.

(** Whatever the network answers, the loop leaves [t] extended by at
    most [m - a] rounds, each with the same status query, and it
    returns a success carrying [sid], an error, or throws. *)
Lemma poll_shape d : forall m sid a t,
  m - a = d ->
  exists n, n <= d /\
    snd (poll net m sid a t) = (t ++ poll_events sid n)%list /\
    poll_outcome sid (fst (poll net m sid a t)).
Proof.
  induction d as [|d IH]; intros m sid a t Hd.
  - exists 0. rewrite poll_exit by lia. cbn. rewrite app_nil_r.
    repeat split; [lia|constructor].
  - assert (Hlt : a < m) by lia.
    rewrite (poll_round m sid a t Hlt). cbn zeta.
    assert (Hone : forall c, poll_outcome sid c ->
              exists n, n <= S d /\
                snd (c, (t ++ [EvSleep 5000; EvFetch (status_request sid)])%list)
                = (t ++ poll_events sid n)%list /\
                poll_outcome sid (fst (c, (t ++ [EvSleep 5000;
                                    EvFetch (status_request sid)])%list))).
    { intros c Hc. exists 1. repeat split; [lia|assumption]. }
    destruct (net (fetch_count t) (status_request sid)) as [e|resp];
      [apply Hone; constructor|].
    destruct (resp_json resp) as [e|statusData]; [apply Hone; constructor|].
    destruct (property statusData "status") as [e|status];
      [apply Hone; constructor|].
    destruct (strict_eq_string status "completed").
    { destruct (property statusData "data"); apply Hone; constructor. }
    destruct (strict_eq_string status "error").
    { destruct (property statusData "error"); apply Hone; constructor. }
    destruct (IH m sid (S a)
                (t ++ [EvSleep 5000; EvFetch (status_request sid)])%list)
      as (n & Hn & Ht & Ho); [lia|].
    exists (S n). repeat split; [lia| |exact Ho].
    rewrite Ht, <- app_assoc. reflexivity.
Qed.

End Loop.
End PollFacts.

(* ===================================================================== *)
(** ** [analyzeVideo]: start, poll, finish *)
(* ===================================================================== *)

Module AnalyzeFacts.
Import JS Net Agent Spec PollFacts.

Section Facts.
Context `{Engine} (net : network).

(** A value whose property can be read at all lets every property be
    read. *)
Lemma property_total v p q x :
  property v p = Normal x -> exists y, property v q = Normal y.
Proof. destruct v; cbn; intros E; try discriminate; eexists; reflexivity. Qed.

Lemma parsed_inv r v :
  parsed r = Some v -> exists resp, r = Responds resp /\ resp_json resp = Normal v.
Proof.
  unfold parsed. destruct r as [e|resp]; [discriminate|].
  destruct (resp_json resp) eqn:E; [discriminate|].
  intros [= ->]. eauto.
Qed.

(** A start call answered with a truthy session identifier leads into
    the loop with [attempts = 0]. *)
Lemma analyzeVideo_started params started sid :
  parsed (net 0 (start_request (videoUrl params))) = Some started ->
  property started "session_id" = Normal sid ->
  truthy sid = true ->
  run (analyzeVideo net params) =
  caught (poll net 60 sid 0 [EvFetch (start_request (videoUrl params))]).
Proof.
  intros Hp Hsid Ht.
  destruct (parsed_inv _ _ Hp) as (resp & Hnet & Hjson).
  destruct (property_total _ _ "status" _ Hsid) as (st & Hst).
  unfold run, analyzeVideo, try_catch, bind, fetch, json, lift, caught.
  cbn [fetch_count requests length app].
  rewrite Hnet, Hjson, Hsid, Hst, Ht. cbn [negb].
  destruct (poll net 60 sid 0 _) as [[e|v] t]; reflexivity.
Qed.

(** The trace of a started execution that ran [k] rounds. *)
Lemma started_requests url sid k :
  requests (EvFetch (start_request url) :: poll_events sid k)
  = start_request url :: repeat (status_request sid) k.
Proof. cbn. rewrite requests_poll_events. reflexivity. Qed.

(** The loop up to its [k]-th query, when the queries before it all
    report a pending session. *)
Lemma poll_reaches url sid k :
  1 <= k <= 60 ->
  (forall j, 1 <= j < k ->
     reports_pending (net j (status_request sid)) = true) ->
  poll net 60 sid 0 [EvFetch (start_request url)] =
  poll net 60 sid (k - 1)
       (EvFetch (start_request url) :: poll_events sid (k - 1)).
Proof.
  intros Hk Hp.
  rewrite (poll_pending_rounds net (k - 1) 60 sid 0
             [EvFetch (start_request url)]); [reflexivity|lia|].
  intros j Hj. apply Hp. cbn. lia.
Qed.

Lemma poll_events_last sid k :
  1 <= k ->
  (poll_events sid (k - 1) ++ [EvSleep 5000; EvFetch (status_request sid)])%list
  = poll_events sid k.
Proof.
  intros Hk. replace k with (S (k - 1)) at 2 by lia.
  induction (k - 1) as [|n IH]; cbn; [reflexivity|].
  cbn in IH. rewrite IH. reflexivity.
Qed.

Lemma fetch_count_started url sid n :
  fetch_count (EvFetch (start_request url) :: poll_events sid n) = S n.
Proof.
  change (EvFetch (start_request url) :: poll_events sid n)
    with ([EvFetch (start_request url)] ++ poll_events sid n)%list.
  rewrite fetch_count_app, fetch_count_poll_events. reflexivity.
Qed.

(** The [k]-th round, in a started execution whose earlier queries all
    reported a pending session. *)
Lemma kth_round url sid k :
  1 <= k <= 60 ->
  (forall j, 1 <= j < k ->
     reports_pending (net j (status_request sid)) = true) ->
  poll net 60 sid 0 [EvFetch (start_request url)] =
  let t' := EvFetch (start_request url) :: poll_events sid k in
  match net k (status_request sid) with
  | Rejects e => (Throw e, t')
  | Responds resp =>
      match resp_json resp with
      | Throw e => (Throw e, t')
      | Normal statusData =>
          match property statusData "status" with
          | Throw e => (Throw e, t')
          | Normal status =>
              if strict_eq_string status "completed" then
                match property statusData "data" with
                | Throw e => (Throw e, t')
                | Normal data =>
                    (Normal (obj [("success", VBool true);
                                  ("sessionId", sid);
                                  ("analysis", data)]), t')
                end
              else if strict_eq_string status "error" then
                match property statusData "error" with
                | Throw e => (Throw e, t')
                | Normal error =>
                    (Normal (obj [("error",
                                   or_else error (VStr "Analysis failed"))]),
                     t')
                end
              else poll net 60 sid (S (k - 1)) t'
          end
      end
  end.
Proof.
  intros Hk Hp. rewrite (poll_reaches url sid k Hk Hp).
  rewrite poll_round by lia. cbn zeta.
  rewrite fetch_count_started.
  replace (S (k - 1)) with k by lia.
  change ((EvFetch (start_request url) :: poll_events sid (k - 1))
          ++ [EvSleep 5000; EvFetch (status_request sid)])%list
    with (EvFetch (start_request url)
          :: (poll_events sid (k - 1)
              ++ [EvSleep 5000; EvFetch (status_request sid)]))%list.
  rewrite poll_events_last by lia. reflexivity.
Qed.

(** Every execution of [analyzeVideo] has one of two shapes.  Either
    the start request is its only request and the result is an error
    object; or the start call gave a truthy session identifier, at
    most 60 rounds of the loop follow, each with the status query of
    that identifier, and the result is the success object carrying
    the identifier or an error object.  No exception leaves
    [analyzeVideo]. *)
Lemma analyzeVideo_shape params :
  (exists msg,
     run (analyzeVideo net params) =
     (Normal (obj [("error", msg)]),
      [EvFetch (start_request (videoUrl params))]))
  \/
  (exists started sid n result,
     parsed (net 0 (start_request (videoUrl params))) = Some started /\
     property started "session_id" = Normal sid /\
     truthy sid = true /\
     n <= 60 /\
     run (analyzeVideo net params) =
     (Normal result,
      EvFetch (start_request (videoUrl params)) :: poll_events sid n) /\
     ((exists data, result = obj [("success", VBool true);
                                  ("sessionId", sid);
                                  ("analysis", data)])
      \/ (exists msg, result = obj [("error", msg)]))).
Proof.
  destruct (parsed (net 0 (start_request (videoUrl params)))) as [started|]
    eqn:Hp.
  - destruct (property started "session_id") as [e|sid] eqn:Hsid.
    + left. eexists.
      destruct (parsed_inv _ _ Hp) as (resp & Hnet & Hjson).
      unfold run, analyzeVideo, try_catch, bind, fetch, json, lift, ret.
      cbn [fetch_count requests length app].
      rewrite Hnet, Hjson, Hsid. reflexivity.
    + destruct (truthy sid) eqn:Ht.
      * right.
        destruct (poll_shape net 60 60 sid 0
                    [EvFetch (start_request (videoUrl params))] eq_refl)
          as (n & Hn & Htr & Ho).
        rewrite (analyzeVideo_started params started sid Hp Hsid Ht).
        destruct (poll net 60 sid 0 _) as [c t]. cbn in Htr, Ho. subst t.
        inversion Ho; subst; cbn [caught];
          eexists started, sid, n, _;
          repeat (split; [first [assumption|lia|reflexivity]|]); eauto.
      * left. eexists.
        destruct (parsed_inv _ _ Hp) as (resp & Hnet & Hjson).
        destruct (property_total _ _ "status" _ Hsid) as (st & Hst).
        unfold run, analyzeVideo, try_catch, bind, fetch, json, lift, ret.
        cbn [fetch_count requests length app].
        rewrite Hnet, Hjson, Hsid, Hst, Ht. reflexivity.
  - left.
    unfold parsed in Hp.
    unfold run, analyzeVideo, try_catch, bind, fetch, json, lift, ret.
    cbn [fetch_count requests length app].
    destruct (net 0 (start_request (videoUrl params))) as [e|resp];
      [eexists; reflexivity|].
    destruct (resp_json resp); [eexists; reflexivity|discriminate].
Qed.

(** No exception leaves [analyzeVideo]: every execution returns. *)
Lemma analyzeVideo_returns params :
  exists result, fst (run (analyzeVideo net params)) = Normal result.
Proof.
  destruct (analyzeVideo_shape params)
    as [(msg & E)|(started & sid & n & result & _ & _ & _ & _ & E & _)];
    rewrite E; eexists; reflexivity.
Qed.

(** Polling needs a session identifier: when the start call gives none,
    for whatever reason (an answer without a truthy [session_id], a body
    that is [null] or not JSON, a failed request), the start request is
    the only request. *)
Lemma analyzeVideo_polls_only_when_started params :
  (forall started sid,
     parsed (net 0 (start_request (videoUrl params))) = Some started ->
     property started "session_id" = Normal sid ->
     truthy sid = false) ->
  requests (snd (run (analyzeVideo net params)))
  = [start_request (videoUrl params)].
Proof.
  intros Hnone.
  destruct (analyzeVideo_shape params)
    as [(msg & E)|(started & sid & n & result & Hp & Hsid & Ht & _)].
  - rewrite E. reflexivity.
  - rewrite (Hnone started sid Hp Hsid) in Ht. discriminate.
Qed.

(** C1: when the start call returns a session identifier and the
    [k]-th status query, [1 <= k <= 60], is the first to report status
    ['completed'] (the queries before it report a pending session),
    [analyzeVideo] issues exactly [k] status queries, none after the
    [k]-th, and returns [{success: true, sessionId, analysis}] with the
    backend's [data]. *)
Theorem analyzeVideo_completed_at params k started sid fields :
  parsed (net 0 (start_request (videoUrl params))) = Some started ->
  property started "session_id" = Normal sid ->
  truthy sid = true ->
  1 <= k <= 60 ->
  (forall j, 1 <= j < k ->
     reports_pending (net j (status_request sid)) = true) ->
  parsed (net k (status_request sid)) = Some (VObj fields) ->
  lookup "status" fields = VStr "completed" ->
  run (analyzeVideo net params) =
    (Normal (obj [("success", VBool true);
                  ("sessionId", sid);
                  ("analysis", lookup "data" fields)]),
     EvFetch (start_request (videoUrl params)) :: poll_events sid k)
  /\ requests (snd (run (analyzeVideo net params)))
     = start_request (videoUrl params) :: repeat (status_request sid) k.
Proof.
  intros Hstart Hsid Ht Hk Hpend Hlast Hstatus.
  assert (E : run (analyzeVideo net params) =
              (Normal (obj [("success", VBool true);
                            ("sessionId", sid);
                            ("analysis", lookup "data" fields)]),
               EvFetch (start_request (videoUrl params))
               :: poll_events sid k)).
  { rewrite (analyzeVideo_started params started sid Hstart Hsid Ht).
    rewrite (kth_round (videoUrl params) sid k Hk Hpend). cbn zeta.
    destruct (parsed_inv _ _ Hlast) as (resp & -> & ->).
    cbn [property]. rewrite Hstatus. reflexivity. }
  split; [exact E|].
  rewrite E. apply started_requests.
Qed.

(** C2: when the start call returns a session identifier and every
    status query reports a status that is neither ['completed'] nor
    ['error'], the loop ends after exactly 60 status queries and
    [analyzeVideo] returns [{error: 'Analysis timeout'}]. *)
Theorem analyzeVideo_timeout params started sid :
  parsed (net 0 (start_request (videoUrl params))) = Some started ->
  property started "session_id" = Normal sid ->
  truthy sid = true ->
  (forall j, 1 <= j <= 60 ->
     reports_pending (net j (status_request sid)) = true) ->
  run (analyzeVideo net params) =
    (Normal (obj [("error", VStr "Analysis timeout")]),
     EvFetch (start_request (videoUrl params)) :: poll_events sid 60)
  /\ requests (snd (run (analyzeVideo net params)))
     = start_request (videoUrl params) :: repeat (status_request sid) 60.
Proof.
  intros Hstart Hsid Ht Hpend.
  assert (E : run (analyzeVideo net params) =
              (Normal (obj [("error", VStr "Analysis timeout")]),
               EvFetch (start_request (videoUrl params))
               :: poll_events sid 60)).
  { rewrite (analyzeVideo_started params started sid Hstart Hsid Ht).
    rewrite (poll_pending_rounds net 60 60 sid 0
               [EvFetch (start_request (videoUrl params))]).
    - rewrite poll_exit by (cbn; lia). reflexivity.
    - lia.
    - intros j Hj. apply Hpend. cbn. lia. }
  split; [exact E|].
  rewrite E. apply started_requests.
Qed.


(** C7, as amended: when the start call is answered with a JSON value
    other than [null] that holds no session identifier (the [session_id]
    read from the answer is absent or otherwise falsy), [analyzeVideo]
    returns [{error: 'Failed to start analysis'}] and issues no status
    query: the start request is the only request of the execution. *)
Theorem analyzeVideo_not_started params started sid :
  parsed (net 0 (start_request (videoUrl params))) = Some started ->
  property started "session_id" = Normal sid ->
  truthy sid = false ->
  run (analyzeVideo net params) =
    (Normal (obj [("error", VStr "Failed to start analysis")]),
     [EvFetch (start_request (videoUrl params))])
  /\ requests (snd (run (analyzeVideo net params)))
     = [start_request (videoUrl params)].
Proof.
  intros Hp Hsid Ht.
  destruct (parsed_inv _ _ Hp) as (resp & Hnet & Hjson).
  destruct (property_total _ _ "status" _ Hsid) as (st & Hst).
  unfold run, analyzeVideo, try_catch, bind, fetch, json, lift, ret.
  cbn [fetch_count requests length app].
  rewrite Hnet, Hjson, Hsid, Hst, Ht. cbn. split; reflexivity.
Qed.

(** C10: [analyzeVideo] does not depend on [analysisType].  Two calls
    that differ only in it (given or omitted) run alike on every
    network: same result, same requests.  The first request is the
    start request, whose body has the four fields [video_input],
    [transcribe_model], [vision_model], [frame_sample_rate] and no
    other. *)
Theorem analyzeVideo_ignores_analysisType url type1 type2 :
  run (analyzeVideo net {| videoUrl := url; analysisType := type1 |})
  = run (analyzeVideo net {| videoUrl := url; analysisType := type2 |})
  /\ hd_error (requests (snd (run (analyzeVideo net
                 {| videoUrl := url; analysisType := type1 |}))))
     = Some (start_request url)
  /\ req_body (start_request url)
     = Some (obj [("video_input", VStr url);
                  ("transcribe_model", VStr "gpt-4o-mini-transcribe");
                  ("vision_model", VStr "gpt-4o-mini");
                  ("frame_sample_rate", VNum one)]).
Proof.
  split; [reflexivity|]. split; [|reflexivity].
  destruct (analyzeVideo_shape {| videoUrl := url; analysisType := type1 |})
    as [(msg & E)|(started & sid & n & result & _ & _ & _ & _ & E & _)];
    rewrite E; reflexivity.
Qed.

End Facts.

Import Samples.

Lemma analyzeVideo_completed_at_witness :
  run (analyzeVideo (H := engine) completes_third params) =
    (Normal (obj [("success", VBool true);
                  ("sessionId", VStr "abc");
                  ("analysis", obj [("summary", VStr "ok")])]),
     EvFetch (start_request params.(videoUrl))
     :: poll_events (H := engine) (VStr "abc") 3)
  /\ requests (snd (run (analyzeVideo (H := engine) completes_third params)))
     = start_request params.(videoUrl)
       :: repeat (status_request (H := engine) (VStr "abc")) 3.
Proof.
  apply (@analyzeVideo_completed_at engine completes_third params 3
           (obj [("session_id", VStr "abc"); ("status", VStr "pending")])
           (VStr "abc")
           [("status", VStr "completed");
            ("data", obj [("summary", VStr "ok")])]);
    try reflexivity; try lia.
  intros j Hj. assert (j = 1 \/ j = 2) as [-> | ->] by lia; reflexivity.
Defined.

Lemma analyzeVideo_timeout_witness :
  run (analyzeVideo (H := engine) never_completes params) =
    (Normal (obj [("error", VStr "Analysis timeout")]),
     EvFetch (start_request params.(videoUrl))
     :: poll_events (H := engine) (VStr "abc") 60)
  /\ requests (snd (run (analyzeVideo (H := engine) never_completes params)))
     = start_request params.(videoUrl)
       :: repeat (status_request (H := engine) (VStr "abc")) 60.
Proof.
  apply (@analyzeVideo_timeout engine never_completes params
           (obj [("session_id", VStr "abc"); ("status", VStr "pending")])
           (VStr "abc")); try reflexivity.
  intros j Hj. destruct j as [|j]; [lia|reflexivity].
Defined.


(** C7 as stated fails: the start call is answered with the JSON text
    [null], which holds no session identifier, and [analyzeVideo] returns
    the error of its [catch] clause, not ['Failed to start analysis']. *)
Lemma analyzeVideo_null_start :
  ~ start_fails_without_id (H := engine) MoreSamples.null_start params.
Proof.
  intros Hclaim. specialize (Hclaim VNull eq_refl eq_refl).
  vm_compute in Hclaim. discriminate Hclaim.
Qed.

Lemma analyzeVideo_not_started_witness :
  run (analyzeVideo (H := engine) refuses_start params) =
    (Normal (obj [("error", VStr "Failed to start analysis")]),
     [EvFetch (start_request params.(videoUrl))])
  /\ requests (snd (run (analyzeVideo (H := engine) refuses_start params)))
     = [start_request params.(videoUrl)].
Proof.
  apply (@analyzeVideo_not_started engine refuses_start params
           (obj [("status", VStr "rejected")]) VUndefined); reflexivity.
Defined.

End AnalyzeFacts.

(* ===================================================================== *)
(** ** Strings: occurrences and case *)
(* ===================================================================== *)

Module StringFacts.
Import JS Spec.

Lemma append_assoc (a b c : string) : (a ++ b) ++ c = a ++ b ++ c.
Proof. induction a as [|x a IH]; cbn; [|rewrite IH]; reflexivity. Qed.

Lemma startsWith_iff p : forall s,
  startsWith s p = true <-> exists rest, s = p ++ rest.
Proof.
  induction p as [|a p IH]; intros s.
  - destruct s; cbn; split; eauto.
  - destruct s as [|b s]; cbn.
    + split; [discriminate|intros [rest E]; discriminate].
    + rewrite andb_true_iff, Ascii.eqb_eq, IH. split.
      * intros [-> [rest ->]]. eauto.
      * intros [rest E]. injection E as -> ->. eauto.
Qed.

Lemma includes_iff p : forall s,
  includes s p = true <-> exists before after, s = before ++ p ++ after.
Proof.
  induction s as [|c s IH]; cbn [includes];
    rewrite orb_true_iff, startsWith_iff.
  - split.
    + intros [[rest E]|E]; [|discriminate]. exists "", rest. exact E.
    + intros (before & after & E). left.
      destruct before; [|discriminate]. eauto.
  - rewrite IH. split.
    + intros [[rest E]|(before & after & E)].
      * exists "", rest. exact E.
      * exists (String c before), after. cbn. rewrite E. reflexivity.
    + intros (before & after & E). destruct before as [|b before].
      * left. eauto.
      * right. cbn in E. injection E as _ E. eauto.
Qed.

Lemma toLowerCase_app a b :
  toLowerCase (a ++ b) = toLowerCase a ++ toLowerCase b.
Proof. induction a as [|x a IH]; cbn; [|rewrite IH]; reflexivity. Qed.

(** A lowered string splits where the original does. *)
Lemma toLowerCase_split x : forall s y,
  toLowerCase s = x ++ y ->
  exists a b, s = a ++ b /\ toLowerCase a = x /\ toLowerCase b = y.
Proof.
  induction x as [|c x IH]; intros s y E.
  - exists "", s. auto.
  - destruct s as [|d s]; [discriminate|].
    cbn in E. injection E as Hc E.
    destruct (IH s y E) as (a & b & -> & Ha & Hb).
    exists (String d a), b. cbn. rewrite Ha, Hc. auto.
Qed.

(** [toLowerCase] maps a byte to itself or, for an upper-case letter, to
    its lower-case form. *)
Lemma lower_ascii_cases c :
  lower_ascii c = c \/ In (c, lower_ascii c) letters.
Proof.
  destruct c as [[] [] [] [] [] [] [] []];
    first [left; reflexivity
          |right; unfold letters; cbn;
           repeat (first [left; reflexivity|right])].
Qed.

Lemma letters_lower a b : In (a, b) letters -> lower_ascii a = lower_ascii b.
Proof.
  unfold letters. cbn. intros Hin.
  repeat (destruct Hin as [Hin|Hin];
          [injection Hin as <- <-; reflexivity|]).
  contradiction.
Qed.

(** No two upper-case letters share a lower-case form. *)
Lemma letters_upper_unique a b l :
  In (a, l) letters -> In (b, l) letters -> a = b.
Proof.
  unfold letters. cbn. intros Ha Hb.
  repeat (destruct Ha as [Ha|Ha];
          [injection Ha as <- <-;
           repeat (destruct Hb as [Hb|Hb]; [congruence|]); contradiction|]).
  contradiction.
Qed.

(** The source's lowering decides the relation of the specification:
    two bytes are the same letter up to case exactly when they lower to
    the same byte. *)
Lemma same_letter_iff a b :
  same_letter a b <-> lower_ascii a = lower_ascii b.
Proof.
  unfold same_letter. split.
  - intros [->|[Hin|Hin]];
      [reflexivity|apply letters_lower; exact Hin|].
    symmetry. apply letters_lower. exact Hin.
  - intros E.
    destruct (lower_ascii_cases a) as [Ha|Ha], (lower_ascii_cases b) as [Hb|Hb].
    + left. congruence.
    + right. right. rewrite <- E, Ha in Hb. exact Hb.
    + right. left. rewrite E, Hb in Ha. exact Ha.
    + left. rewrite E in Ha. exact (letters_upper_unique a b _ Ha Hb).
Qed.

(** Two words spell the same up to case when they lower to the same
    string. *)
Lemma spelling_iff w : forall kw,
  Forall2 same_letter (list_ascii_of_string w) (list_ascii_of_string kw)
  <-> toLowerCase w = toLowerCase kw.
Proof.
  induction w as [|c w IH]; intros [|d kw]; cbn; split; intros E;
    try reflexivity; try discriminate; try (inversion E; fail);
    try constructor.
  - inversion E; subst. f_equal; [apply same_letter_iff; assumption|].
    apply IH. assumption.
  - injection E as Hc _. apply same_letter_iff. exact Hc.
  - injection E as _ E. apply IH. exact E.
Qed.

(** The test of the source, [commandLower.includes(keyword)], decides
    case-insensitive substring matching for a lower-case keyword. *)
Lemma mentions_iff command kw :
  toLowerCase kw = kw ->
  (mentions command kw <-> includes (toLowerCase command) kw = true).
Proof.
  intros Hkw. rewrite includes_iff. split.
  - intros (before & word & after & -> & Hw).
    apply spelling_iff in Hw. rewrite Hkw in Hw.
    exists (toLowerCase before), (toLowerCase after).
    rewrite !toLowerCase_app, Hw. reflexivity.
  - intros (before & after & E).
    destruct (toLowerCase_split _ _ _ E) as (a & b & -> & _ & Hb).
    destruct (toLowerCase_split _ _ _ Hb) as (w & c & -> & Hw & _).
    exists a, w, c. split; [reflexivity|].
    apply spelling_iff. rewrite Hw, Hkw. reflexivity.
Qed.

Lemma Exists_mentions command keywords :
  Forall (fun kw => toLowerCase kw = kw) keywords ->
  (Exists (mentions command) keywords
   <-> existsb (mentions_b command) keywords = true).
Proof.
  intros Hlow. rewrite Exists_exists, existsb_exists.
  rewrite Forall_forall in Hlow.
  split; intros (kw & Hin & Hm); exists kw; (split; [assumption|]);
    apply (mentions_iff command kw (Hlow kw Hin)); exact Hm.
Qed.

(** First match wins, as a relation and as a program. *)
Lemma first_match_classify command rules :
  lower_case_rules rules ->
  forall i, first_match command rules i <-> i = classify command rules.
Proof.
  unfold lower_case_rules.
  induction rules as [|[keywords k] rules IH]; intros Hlow i.
  - cbn. split; [inversion 1; reflexivity|intros ->; constructor].
  - inversion Hlow as [|? ? Hk Hrest]; subst. cbn in Hk. cbn [classify].
    pose proof (Exists_mentions command keywords Hk) as Hex.
    destruct (existsb (mentions_b command) keywords) eqn:Eb.
    + split.
      * inversion 1; subst; [reflexivity|].
        exfalso. tauto.
      * intros ->. apply fm_here. tauto.
    + assert (Hno : ~ Exists (mentions command) keywords).
      { rewrite Hex. discriminate. }
      split.
      * inversion 1; subst; [contradiction|]. apply IH; assumption.
      * intros E. apply fm_later; [assumption|]. apply IH; assumption.
Qed.

Lemma priority_lower_case : lower_case_rules priority.
Proof. repeat constructor. Qed.

Example classify_resume : classify "Resume playback" priority = Play.
Proof. reflexivity. Qed.

Example classify_display : classify "DISPLAY the transcript" priority = Play.
Proof. reflexivity. Qed.

Example classify_pause_describe :
  classify "please pause and describe" priority = Pause.
Proof. reflexivity. Qed.

Example classify_transcribe : classify "Transcribe this" priority = Transcript.
Proof. reflexivity. Qed.

Example classify_hello : classify "hello there" priority = Unrecognized.
Proof. reflexivity. Qed.

Example ToString_array :
  ToString (H := Samples.engine) (VArr [VStr "a"; VNull; VBool true; VArr []])
  = "a,,true,".
Proof. reflexivity. Qed.

End StringFacts.

(* ===================================================================== *)
(** ** [processVoiceCommand] *)
(* ===================================================================== *)

Module VoiceFacts.
Import JS Net Agent Spec StringFacts PollFacts.

Section Facts.
Context `{Engine} (net : network).

(** The URL [getSceneDescription] asks for when no timestamp is
    given. *)
Lemma getSceneDescription_run s t :
  let req := get_request ("/api/video-analysis?sessionId=" ++ s
                          ++ "&action=scenes") in
  getSceneDescription net {| sessionId := s; timestamp := None |} t =
  (Normal
     match parsed (net (fetch_count t) req) with
     | Some data => obj [("success", VBool true); ("scenes", data)]
     | None =>
         obj [("error",
               VStr ("Failed to get scenes: " ++
                     Error_toString
                       match net (fetch_count t) req with
                       | Rejects e => e
                       | Responds resp =>
                           match resp_json resp with
                           | Throw e => e
                           | Normal _ => mkError "" ""
                           end
                       end))]
     end,
   (t ++ [EvFetch req])%list).
Proof.
  cbn zeta.
  unfold getSceneDescription, try_catch, bind, fetch, json, lift, ret, parsed.
  cbn [sessionId timestamp with_timestamp].
  destruct (net (fetch_count t) _) as [e|resp]; [reflexivity|].
  destruct (resp_json resp); reflexivity.
Qed.

(** [getTranscript] returns, whatever the network does. *)
Lemma getTranscript_returns params t :
  exists v t', getTranscript net params t = (Normal v, t').
Proof.
  unfold getTranscript, try_catch, bind, fetch, json, lift, ret.
  destruct (net (fetch_count t) _) as [e|resp]; [eauto|].
  destruct (resp_json resp); eauto.
Qed.

(** The dispatcher's chain of tests computes [classify] on the
    priority list. *)
Lemma classify_priority command :
  classify command priority =
  let commandLower := toLowerCase command in
  if includes commandLower "play" || includes commandLower "resume" then Play
  else if includes commandLower "pause" then Pause
  else if includes commandLower "stop" then Stop
  else if includes commandLower "describe" then Describe
  else if includes commandLower "transcript"
          || includes commandLower "transcribe" then Transcript
  else Unrecognized.
Proof.
  cbn [classify priority existsb]. unfold mentions_b.
  rewrite !orb_false_r. reflexivity.
Qed.

(** C4: [processVoiceCommand] classifies its command by
    case-insensitive substring matching in the fixed priority order
    play/resume, pause, stop, describe, transcript/transcribe,
    otherwise unrecognized.  Matching is stated without the code's
    lowering: a part of the command spells the keyword, each byte the
    same or the other case of the same letter.  The first rule that
    matches decides the result, the classification is unique, and the
    command ["please pause and describe"] gives the pause result, in
    lower case and in capitals. *)
Theorem processVoiceCommand_priority :
  (forall command sessionId t,
     exists i result t',
       first_match command priority i /\
       (forall j, first_match command priority j -> j = i) /\
       processVoiceCommand net command sessionId t = (Normal result, t') /\
       shows result i)
  /\ (forall sessionId t,
        processVoiceCommand net "please pause and describe" sessionId t =
        (Normal (obj [("action", VStr "pause");
                      ("message", VStr "Video paused")]), t))
  /\ (forall sessionId t,
        processVoiceCommand net "Please PAUSE and Describe" sessionId t =
        (Normal (obj [("action", VStr "pause");
                      ("message", VStr "Video paused")]), t)).
Proof.
  split; [|split; reflexivity].
  intros command sessionId t.
  pose proof (first_match_classify command priority priority_lower_case)
    as Hfm.
  exists (classify command priority).
  assert (Hrun : exists result t',
            processVoiceCommand net command sessionId t = (Normal result, t')
            /\ shows result (classify command priority)).
  { rewrite classify_priority. cbn zeta. unfold processVoiceCommand.
    destruct (includes (toLowerCase command) "play"
              || includes (toLowerCase command) "resume");
      [do 2 eexists; split; reflexivity|].
    destruct (includes (toLowerCase command) "pause");
      [do 2 eexists; split; reflexivity|].
    destruct (includes (toLowerCase command) "stop");
      [do 2 eexists; split; reflexivity|].
    destruct (includes (toLowerCase command) "describe").
    { destruct (session_given sessionId) as [s|].
      - unfold bind. rewrite getSceneDescription_run. cbn zeta.
        do 2 eexists. split; [reflexivity|]. cbn. eauto.
      - do 2 eexists. split; [reflexivity|]. cbn. eauto. }
    destruct (includes (toLowerCase command) "transcript"
              || includes (toLowerCase command) "transcribe").
    { destruct (session_given sessionId) as [s|].
      - unfold bind.
        destruct (getTranscript_returns {| sessionId := s; timestamp := None |} t)
          as (v & t' & ->).
        do 2 eexists. split; [reflexivity|]. cbn. eauto.
      - do 2 eexists. split; [reflexivity|]. cbn. eauto. }
    do 2 eexists; split; reflexivity. }
  destruct Hrun as (result & t' & Hrun & Hshows).
  exists result, t'. repeat split; try assumption.
  - apply Hfm. reflexivity.
  - intros j Hj. apply Hfm. exact Hj.
Qed.

(** C5: for a command that classifies as describe, a supplied (non
    empty) session identifier makes the dispatcher call
    [getSceneDescription] with that identifier, one request for the
    scenes of the session, and return its result under [{action:
    'describe', data}]; without a session identifier it returns
    [{action: 'describe', message: 'No active session'}] and leaves
    the trace as it was: no request is made. *)
Theorem processVoiceCommand_describe command :
  first_match command priority Describe ->
  (forall s t, s <> "" ->
     exists response t',
       getSceneDescription net {| sessionId := s; timestamp := None |} t
       = (Normal response, t') /\
       processVoiceCommand net command (Some s) t
       = (Normal (obj [("action", VStr "describe"); ("data", response)]), t') /\
       requests t'
       = (requests t ++
          [get_request ("/api/video-analysis?sessionId=" ++ s
                        ++ "&action=scenes")])%list)
  /\ (forall sessionId t,
        sessionId = None \/ sessionId = Some "" ->
        processVoiceCommand net command sessionId t
        = (Normal (obj [("action", VStr "describe");
                        ("message", VStr "No active session")]), t)).
Proof.
  intros Hfm.
  apply (first_match_classify command priority priority_lower_case) in Hfm.
  rewrite classify_priority in Hfm. cbn zeta in Hfm.
  assert (Hcode : forall sessionId,
            processVoiceCommand net command sessionId =
            match session_given sessionId with
            | Some s =>
                bind (getSceneDescription net
                        {| sessionId := s; timestamp := None |})
                     (fun response =>
                        ret (obj [("action", VStr "describe");
                                  ("data", response)]))
            | None =>
                ret (obj [("action", VStr "describe");
                          ("message", VStr "No active session")])
            end).
  { intros sessionId. unfold processVoiceCommand.
    destruct (includes (toLowerCase command) "play"
              || includes (toLowerCase command) "resume"); [discriminate|].
    destruct (includes (toLowerCase command) "pause"); [discriminate|].
    destruct (includes (toLowerCase command) "stop"); [discriminate|].
    destruct (includes (toLowerCase command) "describe"); [reflexivity|].
    destruct (includes (toLowerCase command) "transcript"
              || includes (toLowerCase command) "transcribe"); discriminate. }
  split.
  - intros s t Hs. rewrite Hcode. cbn [session_given].
    apply String.eqb_neq in Hs. rewrite Hs.
    unfold bind. rewrite getSceneDescription_run. cbn zeta.
    do 2 eexists. split; [reflexivity|]. split; [reflexivity|].
    apply requests_app.
  - intros sessionId t [-> | ->]; rewrite Hcode; reflexivity.
Qed.

End Facts.

Import Samples.

Lemma processVoiceCommand_describe_witness :
  processVoiceCommand (H := engine) not_found "Describe the scene" None []
  = (Normal (obj [("action", VStr "describe");
                  ("message", VStr "No active session")]), [])
  /\ processVoiceCommand (H := engine) not_found "Describe the scene"
                         (Some "abc") []
     = (Normal (obj [("action", VStr "describe");
                     ("data", obj [("success", VBool true);
                                   ("scenes", not_found_body)])]),
        [EvFetch (get_request
                    "/api/video-analysis?sessionId=abc&action=scenes")]).
Proof.
  assert (Hd : first_match "Describe the scene" priority Describe).
  { apply (first_match_classify _ _ priority_lower_case). reflexivity. }
  pose proof (@processVoiceCommand_describe engine not_found
                "Describe the scene" Hd) as [Hsome Hnone].
  split.
  - apply Hnone. left. reflexivity.
  - destruct (Hsome "abc" [] ltac:(discriminate)) as (r & t' & Hg & E & _).
    rewrite E. vm_compute in Hg. injection Hg as <- <-. reflexivity.
Defined.

End VoiceFacts.

(* ===================================================================== *)
(** ** JSON texts and percent-encoding *)
(* ===================================================================== *)

Module JsonFacts.
Import JS Json Spec.

Lemma reparse_defined v : reparse v <> VUndefined.
Proof.
  destruct v as [| |b|x|s|items|fields]; cbn; try discriminate.
  destruct x; discriminate.
Qed.

(** A value without [undefined], [NaN], an infinity or [-0] is written
    and read back as it is. *)
Lemma reparse_exact v : exact v = true -> reparse v = v.
Proof.
  induction v as [| |b|x|s|items IH|fields IH] using value_induction;
    cbn [exact reparse]; try reflexivity; try discriminate.
  - destruct x as [[]| | |]; cbn; congruence.
  - intros He. f_equal. revert He.
    induction IH as [|x rest Hx _ IHrest]; [reflexivity|].
    intros He. apply andb_true_iff in He as [H1 H2].
    rewrite (Hx H1), (IHrest H2). reflexivity.
  - intros He. f_equal. revert He.
    induction IH as [|[k x] rest Hx _ IHrest]; [reflexivity|].
    intros He. apply andb_true_iff in He as [H1 H2]. cbn [snd] in Hx.
    rewrite (IHrest H2).
    destruct x; try discriminate; rewrite (Hx H1); reflexivity.
Qed.

(** Writing and reading a second time changes nothing more. *)
Lemma reparse_idempotent v : reparse (reparse v) = reparse v.
Proof.
  induction v as [| |b|x|s|items IH|fields IH] using value_induction;
    cbn [reparse]; try reflexivity.
  - destruct x as [[]| | |]; reflexivity.
  - f_equal. induction IH as [|x rest Hx _ IHrest]; [reflexivity|].
    rewrite Hx, IHrest. reflexivity.
  - f_equal. induction IH as [|[k x] rest Hx _ IHrest]; [reflexivity|].
    cbn [snd] in Hx.
    destruct x as [| |b|[[]| | |]|s|items|fields']; try exact IHrest;
      cbn in Hx |- *;
      first [f_equal; [f_equal; exact Hx|exact IHrest]
            |f_equal; exact IHrest].
Qed.

Lemma stringify_reads v text :
  JSON_stringify v = Some text ->
  JSON_parse text = reparse v /\ (exact v = true -> JSON_parse text = v).
Proof.
  destruct v; cbn [JSON_stringify]; try discriminate;
    intros [= <-]; (split; [reflexivity|]); cbn [JSON_parse];
    apply reparse_exact.
Qed.

Lemma high_nibble c : nat_of_ascii c / 16 < 16.
Proof.
  pose proof (nat_ascii_bounded c).
  apply Nat.Div0.div_lt_upper_bound. lia.
Qed.

Lemma low_nibble c : nat_of_ascii c mod 16 < 16.
Proof. apply Nat.mod_upper_bound. lia. Qed.

(** The unreserved set of the code is the set of marks of the
    standard. *)
Lemma unreserved_iff c : uri_unreserved c = true <-> is_unreserved c.
Proof.
  unfold is_unreserved.
  assert (E : uri_unreserved c
              = existsb (Ascii.eqb c) (list_ascii_of_string unreserved_marks))
    by (destruct c as [[] [] [] [] [] [] [] []]; reflexivity).
  rewrite E, existsb_exists. split.
  - intros (x & Hin & Heq). apply Ascii.eqb_eq in Heq. subst. exact Hin.
  - intros Hin. exists c. split; [exact Hin|apply Ascii.eqb_refl].
Qed.

Lemma hex_digit_get n : n < 16 -> String.get n hex_digits = Some (hex_digit n).
Proof.
  intros Hn. do 16 (destruct n as [|n]; [reflexivity|]). lia.
Qed.

(** [encodeURIComponent] computes the percent-encoding of the
    standard. *)
Lemma encodeURIComponent_percent s : percent_encoded s (encodeURIComponent s).
Proof.
  induction s as [|c s IH]; [constructor|].
  cbn [encodeURIComponent].
  destruct (uri_unreserved c) eqn:Hc.
  - apply pe_keep; [apply unreserved_iff; exact Hc|exact IH].
  - apply pe_escape; [| | |exact IH].
    + rewrite <- unreserved_iff, Hc. discriminate.
    + apply hex_digit_get, high_nibble.
    + apply hex_digit_get, low_nibble.
Qed.

End JsonFacts.

(* ===================================================================== *)
(** ** The GET handler of the route *)
(* ===================================================================== *)

Module RouteFacts.
Import JS Json Net Spec Route StringFacts JsonFacts.

Section Facts.
Context (env : option string) (net : network).

(** No session identifier: 400, and nothing is fetched. *)
Lemma GET_missing request :
  session_of request = None ->
  run (GET env net request) =
  (Normal {| status := 400;
             body := Text (obj [("error", VStr "Session ID required")]) |}, []).
Proof.
  unfold session_of, run, GET. intros ->. reflexivity.
Qed.

(** With a session identifier, one request goes to the backend; the JSON
    text made of its answer is sent with 200, and a failure is answered
    with 500. *)
Lemma GET_forwarded request sessionId :
  session_of request = Some sessionId ->
  let req := get_request (backend_url env request sessionId) in
  run (GET env net request) =
  match relayed (net 0 req) with
  | Some text => (Normal {| status := 200; body := text |}, [EvFetch req])
  | None =>
      (Normal {| status := 500;
                 body := Text (obj [("error",
                                     VStr "Failed to fetch analysis data")]) |},
       [EvFetch req;
        EvConsoleError "Video analysis fetch error:"
          match net 0 req with
          | Rejects e => e
          | Responds resp =>
              match resp_json resp with
              | Throw e => e
              | Normal _ => not_serializable
              end
          end])
  end.
Proof.
  unfold session_of, run, GET, backend_url, relayed. intros ->. cbn zeta.
  unfold try_catch, bind, fetch, json, lift, ret, console_error, emit,
    NextResponse_json.
  cbn [fetch_count requests length app].
  destruct (net 0 _) as [e|resp]; [reflexivity|].
  destruct (resp_json resp) as [e|data]; [reflexivity|].
  destruct (JSON_stringify data); reflexivity.
Qed.

(** The one request of a GET that carries a session identifier. *)
Lemma GET_requests request sessionId :
  session_of request = Some sessionId ->
  requests (snd (run (GET env net request)))
  = [get_request (backend_url env request sessionId)].
Proof.
  intros Hs. rewrite (GET_forwarded request sessionId Hs). cbn zeta.
  destruct (relayed _); reflexivity.
Qed.

(** The endpoint is a template around the session identifier, which
    goes in as it is. *)
Lemma endpoint_of_template params sessionId :
  endpoint_of params sessionId =
  endpoint_head (searchParams_get params "action") ++ sessionId
  ++ endpoint_tail params.
Proof.
  assert (Hnil : forall x : string, x ++ "" = x).
  { induction x as [|c x IH]; cbn; [|rewrite IH]; reflexivity. }
  unfold endpoint_of, endpoint_head, endpoint_tail, action_is, nonempty,
    default_string.
  destruct (searchParams_get params "action") as [a|];
    [|cbn; rewrite Hnil; reflexivity].
  destruct (String.eqb a "transcript");
    [destruct (searchParams_get params "timestamp") as [ts|];
     [destruct (String.eqb ts "")|];
     rewrite ?Hnil, ?append_assoc; reflexivity|].
  destruct (String.eqb a "scenes");
    [destruct (searchParams_get params "timestamp") as [ts|];
     [destruct (String.eqb ts "")|];
     rewrite ?Hnil, ?append_assoc; reflexivity|].
  destruct (String.eqb a "comparison"); [rewrite Hnil; reflexivity|].
  destruct (String.eqb a "search"); [|rewrite Hnil; reflexivity].
  destruct (searchParams_get params "query") as [q|]; cbn [append];
    [|reflexivity].
  destruct (String.eqb_spec q ""); [subst|]; reflexivity.
Qed.

(** The URL of a search. *)
Lemma search_url request sessionId query :
  searchParams_get (searchParams request) "action" = Some "search" ->
  searchParams_get (searchParams request) "query" = Some query ->
  backend_url env request sessionId =
  PYTHON_API_URL env ++ "/api/search?session_id=" ++ sessionId
  ++ "&query=" ++ encodeURIComponent query.
Proof.
  intros Ha Hq. unfold backend_url. rewrite endpoint_of_template.
  unfold endpoint_head, endpoint_tail. rewrite Ha, Hq. reflexivity.
Qed.

(** C3, as amended: for a GET request that carries a session
    identifier, when the backend fetch and the JSON parse succeed, the
    response has status 200, whatever status the backend answered with,
    and its body is [JSON.stringify] of the parsed backend body: a client
    reads the same JSON value, except that a number read as an infinity
    is sent as [null] and [-0] as [0].  Status 400 is returned exactly
    for a missing session identifier and 500 exactly for a forwarding
    failure. *)
Theorem GET_relays_body request :
  (forall sessionId resp v text,
     session_of request = Some sessionId ->
     net 0 (get_request (backend_url env request sessionId)) = Responds resp ->
     resp_json resp = Normal v ->
     JSON_stringify v = Some text ->
     run (GET env net request) =
     (Normal {| status := 200; body := text |},
      [EvFetch (get_request (backend_url env request sessionId))])
     /\ JSON_parse text = reparse v
     /\ (exact v = true -> JSON_parse text = v))
  /\ (exists res,
        fst (run (GET env net request)) = Normal res /\
        (status res = 400 <-> session_of request = None) /\
        (status res = 500 <->
         exists sessionId,
           session_of request = Some sessionId /\
           relayed (net 0 (get_request (backend_url env request sessionId)))
           = None)).
Proof.
  split.
  - intros sessionId resp v text Hs Hnet Hjson Htext.
    rewrite (GET_forwarded request sessionId Hs). cbn zeta.
    unfold relayed. rewrite Hnet, Hjson, Htext.
    split; [reflexivity|]. apply stringify_reads. exact Htext.
  - destruct (session_of request) as [sessionId|] eqn:Hs.
    + rewrite (GET_forwarded request sessionId Hs). cbn zeta.
      destruct (relayed _) as [text|] eqn:Hr.
      * eexists. split; [reflexivity|]. cbn. split.
        -- split; discriminate.
        -- split; [discriminate|].
           intros (sid & [= <-] & Hp). rewrite Hr in Hp. discriminate.
      * eexists. split; [reflexivity|]. cbn. split.
        -- split; discriminate.
        -- split; [|reflexivity]. intros _. exists sessionId. auto.
    + rewrite (GET_missing request Hs). eexists. split; [reflexivity|].
      cbn. split.
      * split; reflexivity.
      * split; [discriminate|]. intros (sid & Hsid & _). discriminate.
Qed.

(** C8, as amended: a GET request with [action=search], a session
    identifier and a query makes the handler fetch the backend's search
    endpoint with that session identifier and the percent-encoded query,
    and nothing else; the body of the response is [JSON.stringify] of the
    parsed backend body: a client reads the same JSON value, except that
    a number read as an infinity is sent as [null] and [-0] as [0]. *)
Theorem GET_search request sessionId query :
  session_of request = Some sessionId ->
  searchParams_get (searchParams request) "action" = Some "search" ->
  searchParams_get (searchParams request) "query" = Some query ->
  let url := PYTHON_API_URL env ++ "/api/search?session_id=" ++ sessionId
             ++ "&query=" ++ encodeURIComponent query in
  percent_encoded query (encodeURIComponent query)
  /\ requests (snd (run (GET env net request))) = [get_request url]
  /\ (forall v text,
        parsed (net 0 (get_request url)) = Some v ->
        JSON_stringify v = Some text ->
        fst (run (GET env net request))
        = Normal {| status := 200; body := text |}
        /\ JSON_parse text = reparse v
        /\ (exact v = true -> JSON_parse text = v)).
Proof.
  intros Hs Ha Hq. cbn zeta.
  split; [apply encodeURIComponent_percent|].
  rewrite <- (search_url request sessionId query Ha Hq).
  split; [apply (GET_requests request sessionId Hs)|].
  intros v text Hp Htext.
  rewrite (GET_forwarded request sessionId Hs). cbn zeta.
  unfold parsed in Hp. unfold relayed.
  destruct (net 0 _) as [e|resp]; [discriminate|].
  destruct (resp_json resp) as [e|data]; [discriminate|].
  injection Hp as ->. rewrite Htext.
  split; [reflexivity|]. apply stringify_reads. exact Htext.
Qed.

End Facts.

Import Samples MoreSamples.

Example encodeURIComponent_reserved :
  encodeURIComponent "cat & dog?" = "cat%20%26%20dog%3F".
Proof. reflexivity. Qed.

(** The example of the specification: session [abc], query [cat]. *)
Example GET_search_cat :
  requests (snd (run (GET None not_found search_cat)))
  = [get_request "http://localhost:8000/api/search?session_id=abc&query=cat"].
Proof. reflexivity. Qed.

(** C3 as stated fails twice.  The backend answers 404 with a JSON body,
    and the handler answers 200 with that body; the backend answers 200
    with a body that holds an infinity and a [-0], and the handler sends
    [null] and [0] in their place. *)
Lemma GET_passes_neither_status_nor_body :
  ~ passes_status_and_body None not_found status_of_abc
  /\ ~ passes_status_and_body None overflowing status_of_abc.
Proof.
  split; intros Hpass.
  - specialize (Hpass "abc" (mkResponse 404 (Normal not_found_body))
                      not_found_body eq_refl eq_refl eq_refl).
    vm_compute in Hpass. discriminate Hpass.
  - specialize (Hpass "abc" (mkResponse 200 (Normal overflowing_body))
                      overflowing_body eq_refl eq_refl eq_refl).
    vm_compute in Hpass. discriminate Hpass.
Qed.

Lemma GET_relays_body_witness :
  run (GET None overflowing status_of_abc) =
  (Normal {| status := 200;
             body := Text (obj [("score", VNull);
                                ("offset", VNum (S754_zero false))]) |},
   [EvFetch (get_request "http://localhost:8000/api/status/abc")])
  /\ JSON_parse (Text (obj [("score", VNull);
                            ("offset", VNum (S754_zero false))]))
     = reparse overflowing_body
  /\ (exact overflowing_body = true ->
      JSON_parse (Text (obj [("score", VNull);
                             ("offset", VNum (S754_zero false))]))
      = overflowing_body).
Proof.
  apply (proj1 (GET_relays_body None overflowing status_of_abc)
               "abc" (mkResponse 200 (Normal overflowing_body)) overflowing_body);
    reflexivity.
Defined.

(** C8 as stated fails: the backend's search answer holds an infinity
    and a [-0], and a client of the handler reads [null] and [0]. *)
Lemma GET_search_rewrites_numbers :
  ~ relays_unmodified None overflowing search_cat.
Proof.
  intros Hrelay.
  destruct (Hrelay "abc" overflowing_body eq_refl eq_refl) as (res & Hres & Hbody).
  vm_compute in Hres. injection Hres as <-.
  vm_compute in Hbody. discriminate Hbody.
Qed.

Lemma GET_search_witness :
  percent_encoded "cat & dog" "cat%20%26%20dog"
  /\ requests (snd (run (GET None not_found search_cat_and_dog)))
     = [get_request
          "http://localhost:8000/api/search?session_id=abc&query=cat%20%26%20dog"]
  /\ (forall v text,
        parsed (not_found 0 (get_request
          "http://localhost:8000/api/search?session_id=abc&query=cat%20%26%20dog"))
        = Some v ->
        JSON_stringify v = Some text ->
        fst (run (GET None not_found search_cat_and_dog))
        = Normal {| status := 200; body := text |}
        /\ JSON_parse text = reparse v
        /\ (exact v = true -> JSON_parse text = v)).
Proof.
  apply (GET_search None not_found search_cat_and_dog "abc" "cat & dog");
    reflexivity.
Defined.

End RouteFacts.

(* ===================================================================== *)
(** ** The session identifier *)
(* ===================================================================== *)

Module SessionFacts.
Import JS Net Agent Spec Route PollFacts AnalyzeFacts RouteFacts.

Section Facts.
Context `{Engine} (client : network) (env : option string) (backend : network).

(** C9: the session identifier [s] of a start-analysis answer is
    embedded as it is in every status query of the polling loop (all
    requests after the start request are the GET of
    [/api/video-analysis?sessionId=s]), and the [sessionId] of a
    success result is [s]; and the route's GET handler fetches, for
    each of its five endpoints, the template of the action with the
    caller's session identifier put in unmodified. *)
Theorem session_identifier_verbatim :
  (forall params started s,
     parsed (client 0 (start_request (videoUrl params))) = Some started ->
     property started "session_id" = Normal (VStr s) ->
     exists n result,
       n <= 60 /\
       fst (run (analyzeVideo client params)) = Normal result /\
       requests (snd (run (analyzeVideo client params)))
       = start_request (videoUrl params)
         :: repeat (get_request ("/api/video-analysis?sessionId=" ++ s)) n /\
       (forall fields,
          result = VObj fields ->
          lookup "success" fields = VBool true ->
          lookup "sessionId" fields = VStr s))
  /\ (forall request s,
        session_of request = Some s ->
        requests (snd (run (GET env backend request)))
        = [get_request
             (PYTHON_API_URL env
              ++ endpoint_head (searchParams_get (searchParams request) "action")
              ++ s ++ endpoint_tail (searchParams request))]).
Proof.
  split.
  - intros params started s Hp Hsid.
    destruct (analyzeVideo_shape client params)
      as [(msg & E)
         |(started' & sid & n & result & Hp' & Hsid' & _ & Hn & E & Hres)].
    + exists 0. eexists. rewrite E. cbn.
      repeat split; [lia|]. intros fields [= <-]. discriminate.
    + rewrite Hp in Hp'. injection Hp' as <-.
      rewrite Hsid in Hsid'. injection Hsid' as <-.
      exists n, result. rewrite E. cbn [fst snd].
      split; [exact Hn|]. split; [reflexivity|]. split.
      * apply started_requests.
      * destruct Hres as [(data & ->)|(msg & ->)];
          intros fields [= <-]; cbn; [reflexivity|discriminate].
  - intros request s Hs.
    rewrite (GET_requests env backend request s Hs).
    unfold backend_url. rewrite endpoint_of_template. reflexivity.
Qed.

End Facts.

Import Samples.

Lemma session_identifier_verbatim_witness :
  (exists n result,
     n <= 60 /\
     fst (run (analyzeVideo (H := engine) completes_third params)) = Normal result /\
     requests (snd (run (analyzeVideo (H := engine) completes_third params)))
     = start_request (videoUrl params)
       :: repeat (get_request "/api/video-analysis?sessionId=abc") n /\
     (forall fields,
        result = VObj fields ->
        lookup "success" fields = VBool true ->
        lookup "sessionId" fields = VStr "abc"))
  /\ requests (snd (run (GET None not_found search_cat)))
     = [get_request "http://localhost:8000/api/search?session_id=abc&query=cat"].
Proof.
  destruct (@session_identifier_verbatim engine completes_third None not_found)
    as [Hagent Hroute].
  split.
  - apply (Hagent params
             (obj [("session_id", VStr "abc"); ("status", VStr "pending")])
             "abc"); reflexivity.
  - apply (Hroute search_cat "abc"). reflexivity.
Defined.

End SessionFacts.

(* ===================================================================== *)
(** ** The tools: failures, bounds, requests *)
(* ===================================================================== *)

Module ToolFacts.
Import JS Net Agent Spec Extra PollFacts AnalyzeFacts StringFacts VoiceFacts.

Section Facts.
Context `{Engine} (net : network).

(** A [try] whose [catch] clause returns a value always returns. *)
Lemma try_catch_returns {A} (m : M A) (f : js_error -> A) t :
  exists a t', try_catch m (fun e => ret (f e)) t = (Normal a, t').
Proof.
  unfold try_catch, ret. destruct (m t) as [[e|a] t']; eauto.
Qed.

(** X1: no tool lets an exception out.  From every trace and on every
    network each of the six tools returns a value; [processVoiceCommand]
    has no [try] of its own and returns because the tools it calls do. *)
Theorem tools_always_return :
  (forall params t, exists v t', analyzeVideo net params t = (Normal v, t'))
  /\ (forall params t, exists v t', getTranscript net params t = (Normal v, t'))
  /\ (forall params t, exists v t', getSceneDescription net params t = (Normal v, t'))
  /\ (forall s t, exists v t', compareAudioVisual net s t = (Normal v, t'))
  /\ (forall s q t, exists v t', searchVideoContent net s q t = (Normal v, t'))
  /\ (forall command sessionId t,
        exists v t', processVoiceCommand net command sessionId t = (Normal v, t')).
Proof.
  assert (Hscene : forall params t,
            exists v t', getSceneDescription net params t = (Normal v, t'))
    by (intros; apply try_catch_returns).
  assert (Htrans : forall params t,
            exists v t', getTranscript net params t = (Normal v, t'))
    by (intros; apply try_catch_returns).
  repeat split; try assumption; try (intros; apply try_catch_returns).
  intros command session t. unfold processVoiceCommand.
  repeat match goal with
         | |- context [if ?b then _ else _] => destruct b
         end; try (do 2 eexists; reflexivity);
    destruct (session_given session) as [s|];
    try (do 2 eexists; reflexivity); unfold bind.
  - destruct (Hscene {| sessionId := s; timestamp := None |} t) as (v & t' & ->).
    do 2 eexists; reflexivity.
  - destruct (Htrans {| sessionId := s; timestamp := None |} t) as (v & t' & ->).
    do 2 eexists; reflexivity.
Qed.

Lemma total_sleep_poll_events sid n : total_sleep (poll_events sid n) = 5000 * n.
Proof. induction n as [|n IH]; cbn [poll_events total_sleep]; lia. Qed.

(** X2: polling is bounded.  Every execution of [analyzeVideo] is the
    start request followed by at most 60 rounds, each a wait of 5000 ms
    and then one status query: at most 61 requests, and the time spent
    waiting is 5000 ms per status query, at most 60 times 5000 ms. *)
Theorem analyzeVideo_bounded params :
  exists sid n,
    n <= 60 /\
    snd (run (analyzeVideo net params))
    = EvFetch (start_request (videoUrl params)) :: poll_events sid n /\
    fetch_count (snd (run (analyzeVideo net params))) = S n /\
    total_sleep (snd (run (analyzeVideo net params))) = 5000 * n /\
    total_sleep (snd (run (analyzeVideo net params))) <= 5000 * 60.
Proof.
  destruct (analyzeVideo_shape net params)
    as [(msg & E)|(started & sid & n & result & _ & _ & _ & Hn & E & _)].
  - exists VUndefined, 0. rewrite E.
    cbn [snd poll_events fetch_count requests length total_sleep].
    repeat split; lia.
  - exists sid, n. rewrite E. cbn [snd].
    rewrite fetch_count_started.
    cbn [total_sleep]. rewrite total_sleep_poll_events.
    repeat split; lia.
Qed.

(** X3: an exception in the loop ends it.  When the [k]-th status query
    is the first that is not answered with a pending status and it fails
    (the request is rejected, the body is not JSON, or the body is
    [null]), [analyzeVideo] returns [{error: `Analysis error: ${error}`}]
    after exactly [k] status queries. *)
Theorem analyzeVideo_query_fails params k started sid e :
  parsed (net 0 (start_request (videoUrl params))) = Some started ->
  property started "session_id" = Normal sid ->
  truthy sid = true ->
  1 <= k <= 60 ->
  (forall j, 1 <= j < k ->
     reports_pending (net j (status_request sid)) = true) ->
  reply_exception (net k (status_request sid)) "status" = Some e ->
  run (analyzeVideo net params) =
    (Normal (tool_error "Analysis error: " e),
     EvFetch (start_request (videoUrl params)) :: poll_events sid k)
  /\ requests (snd (run (analyzeVideo net params)))
     = start_request (videoUrl params) :: repeat (status_request sid) k.
Proof.
  intros Hstart Hsid Ht Hk Hpend Hfail.
  assert (E : run (analyzeVideo net params) =
              (Normal (tool_error "Analysis error: " e),
               EvFetch (start_request (videoUrl params)) :: poll_events sid k)).
  { rewrite (analyzeVideo_started net params started sid Hstart Hsid Ht).
    rewrite (kth_round net (videoUrl params) sid k Hk Hpend). cbn zeta.
    unfold reply_exception in Hfail.
    destruct (net k (status_request sid)) as [e'|resp].
    - injection Hfail as ->. reflexivity.
    - destruct (resp_json resp) as [e'|statusData].
      + injection Hfail as ->. reflexivity.
      + destruct (property statusData "status") as [e'|status];
          [|discriminate].
        injection Hfail as ->. reflexivity. }
  split; [exact E|]. rewrite E. apply started_requests.
Qed.

(** X4: a start call that fails (rejected request, body that is not
    JSON, [null] body) gives [{error: `Analysis error: ${error}`}], and
    the start request is the only request. *)
Theorem analyzeVideo_start_fails params e :
  reply_exception (net 0 (start_request (videoUrl params))) "session_id" = Some e ->
  run (analyzeVideo net params) =
    (Normal (tool_error "Analysis error: " e),
     [EvFetch (start_request (videoUrl params))]).
Proof.
  intros Hfail. unfold reply_exception in Hfail.
  unfold run, analyzeVideo, try_catch, bind, fetch, json, lift, ret.
  cbn [fetch_count requests length app].
  destruct (net 0 (start_request (videoUrl params))) as [e'|resp].
  - injection Hfail as ->. reflexivity.
  - destruct (resp_json resp) as [e'|started].
    + injection Hfail as ->. reflexivity.
    + destruct (property started "session_id") as [e'|sid]; [|discriminate].
      injection Hfail as ->. reflexivity.
Qed.

Lemma forget_status_apply n r :
  forget_status net n r =
  match net n r with
  | Rejects e => Rejects e
  | Responds resp => Responds (mkResponse 200 (resp_json resp))
  end.
Proof. reflexivity. Qed.

Lemma poll_forget_status d : forall m sid a t,
  m - a = d ->
  poll (forget_status net) m sid a t = poll net m sid a t.
Proof.
  induction d as [|d IH]; intros m sid a t Hd.
  - rewrite !poll_exit by lia. reflexivity.
  - assert (Hlt : a < m) by lia.
    rewrite (poll_round (forget_status net) m sid a t Hlt).
    rewrite (poll_round net m sid a t Hlt). cbn zeta.
    rewrite forget_status_apply.
    destruct (net (fetch_count t) (status_request sid)) as [e|resp];
      [reflexivity|].
    cbn [resp_json].
    destruct (resp_json resp) as [e|statusData]; [reflexivity|].
    destruct (property statusData "status") as [e|status]; [reflexivity|].
    destruct (strict_eq_string status "completed"); [reflexivity|].
    destruct (strict_eq_string status "error"); [reflexivity|].
    apply IH. lia.
Qed.

(** X5: the tools never look at the HTTP status of an answer.  Replacing
    every status code by 200 changes neither the result nor the trace of
    [analyzeVideo] (an answer with an error status and a JSON body is read
    like any other), of the four retrieval tools, or of
    [processVoiceCommand]. *)
Theorem tools_ignore_http_status :
  (forall params t,
     analyzeVideo (forget_status net) params t = analyzeVideo net params t)
  /\ (forall params t,
        getTranscript (forget_status net) params t = getTranscript net params t)
  /\ (forall params t,
        getSceneDescription (forget_status net) params t
        = getSceneDescription net params t)
  /\ (forall s t,
        compareAudioVisual (forget_status net) s t = compareAudioVisual net s t)
  /\ (forall s q t,
        searchVideoContent (forget_status net) s q t
        = searchVideoContent net s q t)
  /\ (forall command session t,
        processVoiceCommand (forget_status net) command session t
        = processVoiceCommand net command session t).
Proof.
  assert (Hone : forall (A : Type) r (k : value -> M A) (h : js_error -> M A) t,
            try_catch (bind (fetch (forget_status net) r)
                            (fun response => bind (json response) k)) h t
            = try_catch (bind (fetch net r)
                              (fun response => bind (json response) k)) h t).
  { intros A r k h t. unfold try_catch, bind, fetch, json, lift.
    rewrite forget_status_apply.
    destruct (net (fetch_count t) r) as [e|resp]; reflexivity. }
  assert (Hscene : forall params t,
            getSceneDescription (forget_status net) params t
            = getSceneDescription net params t)
    by (intros; apply Hone).
  assert (Htrans : forall params t,
            getTranscript (forget_status net) params t = getTranscript net params t)
    by (intros; apply Hone).
  repeat split; try assumption; try (intros; apply Hone).
  - intros params t.
    unfold analyzeVideo, try_catch, bind, fetch, json, lift.
    rewrite forget_status_apply.
    destruct (net (fetch_count t) _) as [e|resp]; [reflexivity|].
    cbn [resp_json].
    destruct (resp_json resp) as [e|started]; [reflexivity|].
    destruct (property started "session_id") as [e|sid]; [reflexivity|].
    destruct (property started "status") as [e|status]; [reflexivity|].
    destruct (negb (truthy sid)); [reflexivity|].
    cbn zeta. rewrite (poll_forget_status 60 60 sid 0 _ eq_refl). reflexivity.
  - intros s q t.
    unfold searchVideoContent, try_catch, bind, fetch, json, lift.
    destruct (encodeURIComponent_or_throw q) as [e|encoded]; [reflexivity|].
    rewrite forget_status_apply.
    destruct (net (fetch_count t) _) as [e|resp]; reflexivity.
  - intros command session t. unfold processVoiceCommand.
    repeat match goal with
           | |- context [if ?b then _ else _] => destruct b
           end; try reflexivity;
      destruct (session_given session) as [s|]; try reflexivity; unfold bind.
    + rewrite Hscene. reflexivity.
    + rewrite Htrans. reflexivity.
Qed.

(** [getTranscript] without a timestamp, by what its request is answered
    with. *)
Lemma getTranscript_run s t :
  let req := get_request ("/api/video-analysis?sessionId=" ++ s
                          ++ "&action=transcript") in
  getTranscript net {| sessionId := s; timestamp := None |} t =
  (Normal (wrapped "transcript" "Failed to get transcript: "
                   (net (fetch_count t) req)),
   (t ++ [EvFetch req])%list).
Proof.
  cbn zeta.
  unfold getTranscript, try_catch, bind, fetch, json, lift, ret, wrapped,
    body_of, tool_error.
  cbn [sessionId timestamp with_timestamp].
  destruct (net (fetch_count t) _) as [e|resp]; [reflexivity|].
  destruct (resp_json resp); reflexivity.
Qed.

(** [searchVideoContent]: a query with a lone surrogate ends the call
    before any request; otherwise one request is made, and the result
    follows its answer. *)
Lemma searchVideoContent_run s q t :
  let req := get_request ("/api/video-analysis?sessionId=" ++ s
                          ++ "&action=search&query=" ++ encodeURIComponent q) in
  searchVideoContent net s q t =
  if has_lone_surrogate q
  then (Normal (tool_error "Search failed: " URIError_malformed), t)
  else (Normal (wrapped "results" "Search failed: " (net (fetch_count t) req)),
        (t ++ [EvFetch req])%list).
Proof.
  cbn zeta.
  unfold searchVideoContent, try_catch, bind, fetch, json, lift, ret, wrapped,
    body_of, tool_error, encodeURIComponent_or_throw.
  destruct (has_lone_surrogate q); [reflexivity|].
  destruct (net (fetch_count t) _) as [e|resp]; [reflexivity|].
  destruct (resp_json resp); reflexivity.
Qed.




(** X7: a voice command leads to at most one request.  Play, pause, stop
    and unrecognized commands make none, with or without a session;
    describe and transcript make one, for the scenes or the transcript of
    the session, when a session identifier is given and none when it is
    absent or empty. *)
Theorem processVoiceCommand_requests command session t :
  snd (processVoiceCommand net command session t)
  = (t ++ map EvFetch (voice_requests command session))%list.
Proof.
  unfold voice_requests. rewrite classify_priority. cbn zeta.
  unfold processVoiceCommand.
  destruct (includes (toLowerCase command) "play"
            || includes (toLowerCase command) "resume");
    [cbn; rewrite app_nil_r; reflexivity|].
  destruct (includes (toLowerCase command) "pause");
    [cbn; rewrite app_nil_r; reflexivity|].
  destruct (includes (toLowerCase command) "stop");
    [cbn; rewrite app_nil_r; reflexivity|].
  destruct (includes (toLowerCase command) "describe").
  { destruct (session_given session) as [s|];
      [|cbn; rewrite app_nil_r; reflexivity].
    unfold bind. rewrite getSceneDescription_run. reflexivity. }
  destruct (includes (toLowerCase command) "transcript"
            || includes (toLowerCase command) "transcribe");
    [|cbn; rewrite app_nil_r; reflexivity].
  destruct (session_given session) as [s|];
    [|cbn; rewrite app_nil_r; reflexivity].
  unfold bind. rewrite getTranscript_run. reflexivity.
Qed.

(** X8: for a command that classifies as transcript, a supplied (non
    empty) session identifier makes the dispatcher call [getTranscript]
    with it and return its result under [{action: 'transcript', data}];
    without one it returns [{action: 'transcript', message: 'No active
    session'}] and makes no request. *)
Theorem processVoiceCommand_transcript command :
  first_match command priority Transcript ->
  (forall s t, s <> "" ->
     exists response t',
       getTranscript net {| sessionId := s; timestamp := None |} t
       = (Normal response, t') /\
       processVoiceCommand net command (Some s) t
       = (Normal (obj [("action", VStr "transcript"); ("data", response)]), t') /\
       requests t'
       = (requests t ++
          [get_request ("/api/video-analysis?sessionId=" ++ s
                        ++ "&action=transcript")])%list)
  /\ (forall session t,
        session = None \/ session = Some "" ->
        processVoiceCommand net command session t
        = (Normal (obj [("action", VStr "transcript");
                        ("message", VStr "No active session")]), t)).
Proof.
  intros Hfm.
  apply (first_match_classify command priority priority_lower_case) in Hfm.
  rewrite classify_priority in Hfm. cbn zeta in Hfm.
  assert (Hcode : forall session,
            processVoiceCommand net command session =
            match session_given session with
            | Some s =>
                bind (getTranscript net {| sessionId := s; timestamp := None |})
                     (fun response =>
                        ret (obj [("action", VStr "transcript");
                                  ("data", response)]))
            | None =>
                ret (obj [("action", VStr "transcript");
                          ("message", VStr "No active session")])
            end).
  { intros session. unfold processVoiceCommand.
    destruct (includes (toLowerCase command) "play"
              || includes (toLowerCase command) "resume"); [discriminate|].
    destruct (includes (toLowerCase command) "pause"); [discriminate|].
    destruct (includes (toLowerCase command) "stop"); [discriminate|].
    destruct (includes (toLowerCase command) "describe"); [discriminate|].
    destruct (includes (toLowerCase command) "transcript"
              || includes (toLowerCase command) "transcribe");
      [reflexivity|discriminate]. }
  split.
  - intros s t Hs. rewrite Hcode. cbn [session_given].
    apply String.eqb_neq in Hs. rewrite Hs.
    unfold bind. rewrite getTranscript_run.
    cbn zeta. do 2 eexists. split; [reflexivity|]. split; [reflexivity|].
    apply requests_app.
  - intros session t [-> | ->]; rewrite Hcode; reflexivity.
Qed.

End Facts.

Import Samples MoreSamples.

Lemma analyzeVideo_query_fails_witness :
  run (analyzeVideo (H := engine) rejects_second params) =
    (Normal (obj [("error", VStr "Analysis error: TypeError: Failed to fetch")]),
     EvFetch (start_request params.(videoUrl))
     :: poll_events (H := engine) (VStr "abc") 2)
  /\ requests (snd (run (analyzeVideo (H := engine) rejects_second params)))
     = start_request params.(videoUrl)
       :: repeat (status_request (H := engine) (VStr "abc")) 2.
Proof.
  apply (@analyzeVideo_query_fails engine rejects_second params 2
           (obj [("session_id", VStr "abc"); ("status", VStr "pending")])
           (VStr "abc") failed_to_fetch);
    try reflexivity; try lia.
  intros j Hj. assert (j = 1) as -> by lia. reflexivity.
Defined.

Lemma analyzeVideo_start_fails_witness :
  run (analyzeVideo (H := engine) offline params) =
    (Normal (obj [("error", VStr "Analysis error: TypeError: Failed to fetch")]),
     [EvFetch (start_request params.(videoUrl))]).
Proof.
  apply (@analyzeVideo_start_fails engine offline params failed_to_fetch).
  reflexivity.
Defined.

Lemma processVoiceCommand_transcript_witness :
  processVoiceCommand (H := engine) offline "Show TRANSCRIPT" None []
  = (Normal (obj [("action", VStr "transcript");
                  ("message", VStr "No active session")]), [])
  /\ processVoiceCommand (H := engine) offline "Show TRANSCRIPT" (Some "abc") []
     = (Normal (obj [("action", VStr "transcript");
                     ("data", obj [("error",
                        VStr "Failed to get transcript: TypeError: Failed to fetch")])]),
        [EvFetch (get_request
                    "/api/video-analysis?sessionId=abc&action=transcript")]).
Proof.
  assert (Hd : first_match "Show TRANSCRIPT" priority Transcript).
  { apply (first_match_classify _ _ priority_lower_case). reflexivity. }
  pose proof (@processVoiceCommand_transcript engine offline
                "Show TRANSCRIPT" Hd) as [Hsome Hnone].
  split.
  - apply Hnone. left. reflexivity.
  - destruct (Hsome "abc" [] ltac:(discriminate)) as (r & t' & Hg & E & _).
    rewrite E. vm_compute in Hg. injection Hg as <- <-. reflexivity.
Defined.

End ToolFacts.

(* ===================================================================== *)
(** ** [encodeURIComponent] in the URLs of the code *)
(* ===================================================================== *)

Module EncodingFacts.
Import JS Net Agent Spec Extra Route StringFacts JsonFacts RouteFacts.

Lemma hex_digit_value n : n < 16 -> hex_value (hex_digit n) = n.
Proof.
  intros Hn. do 16 (destruct n as [|n]; [reflexivity|]). lia.
Qed.

Lemma hex_digit_unreserved n : n < 16 -> uri_unreserved (hex_digit n) = true.
Proof.
  intros Hn. do 16 (destruct n as [|n]; [reflexivity|]). lia.
Qed.

Lemma safe_not_delimiter c : uri_safe c = true -> delimiter c = false.
Proof.
  destruct c as [[] [] [] [] [] [] [] []]; vm_compute; congruence.
Qed.

Lemma percent_reserved : uri_unreserved "%" = false.
Proof. reflexivity. Qed.

(** The head of an encoded string, by the kind of the first byte. *)
Lemma encode_cons c s :
  encodeURIComponent (String c s) =
  if uri_unreserved c then String c (encodeURIComponent s)
  else String "%" (String (hex_digit (nat_of_ascii c / 16))
                  (String (hex_digit (nat_of_ascii c mod 16))
                          (encodeURIComponent s))).
Proof. reflexivity. Qed.

Lemma string_forall_app f a b :
  string_forall f (a ++ b) = string_forall f a && string_forall f b.
Proof.
  induction a as [|c a IH]; cbn; [reflexivity|].
  rewrite IH, andb_assoc. reflexivity.
Qed.

Lemma string_forall_impl (f g : ascii -> bool) s :
  (forall c, f c = true -> g c = true) ->
  string_forall f s = true -> string_forall g s = true.
Proof.
  intros Hfg. induction s as [|c s IH]; cbn; [reflexivity|].
  rewrite !andb_true_iff. intros [Hc Hs]. auto.
Qed.

(** An encoded component is made of unreserved bytes and percent
    signs only; it contains none of the delimiters [& = # ? / + : ; ,]
    and no space, whatever the string that was encoded. *)
Lemma encodeURIComponent_safe s :
  string_forall uri_safe (encodeURIComponent s) = true
  /\ string_forall (fun c => negb (delimiter c)) (encodeURIComponent s) = true.
Proof.
  assert (Hsafe : string_forall uri_safe (encodeURIComponent s) = true).
  { assert (Hun : forall c, uri_unreserved c = true -> uri_safe c = true)
      by (intros c Hc; unfold uri_safe; rewrite Hc; reflexivity).
    induction s as [|c s IH]; [reflexivity|].
    rewrite encode_cons.
    destruct (uri_unreserved c) eqn:Hc; cbn [string_forall].
    - rewrite (Hun c Hc), IH. reflexivity.
    - rewrite (Hun _ (hex_digit_unreserved _ (high_nibble c))).
      rewrite (Hun _ (hex_digit_unreserved _ (low_nibble c))).
      rewrite IH. reflexivity. }
  split; [exact Hsafe|].
  apply (string_forall_impl uri_safe); [|exact Hsafe].
  intros c Hc. rewrite (safe_not_delimiter c Hc). reflexivity.
Qed.

Lemma ascii_of_nibbles c d :
  nat_of_ascii c / 16 = nat_of_ascii d / 16 ->
  nat_of_ascii c mod 16 = nat_of_ascii d mod 16 ->
  c = d.
Proof.
  intros Hq Hr.
  rewrite <- (ascii_nat_embedding c), <- (ascii_nat_embedding d).
  f_equal.
  rewrite (Nat.div_mod_eq (nat_of_ascii c) 16),
          (Nat.div_mod_eq (nat_of_ascii d) 16).
  rewrite Hq, Hr. reflexivity.
Qed.

(** Encoding loses nothing: two strings with the same encoding are
    the same string. *)
Lemma encodeURIComponent_injective s1 : forall s2,
  encodeURIComponent s1 = encodeURIComponent s2 -> s1 = s2.
Proof.
  induction s1 as [|c1 s1 IH]; intros [|c2 s2] E.
  - reflexivity.
  - rewrite encode_cons in E. destruct (uri_unreserved c2); discriminate.
  - rewrite encode_cons in E. destruct (uri_unreserved c1); discriminate.
  - rewrite !encode_cons in E.
    destruct (uri_unreserved c1) eqn:H1, (uri_unreserved c2) eqn:H2.
    + injection E as -> E. f_equal. apply IH. exact E.
    + injection E as -> _. rewrite percent_reserved in H1. discriminate.
    + injection E as <- _. rewrite percent_reserved in H2. discriminate.
    + injection E as Hq Hr E.
      apply (f_equal hex_value) in Hq, Hr.
      rewrite !hex_digit_value in Hq, Hr
        by (apply high_nibble || apply low_nibble).
      rewrite (ascii_of_nibbles c1 c2 Hq Hr). f_equal. apply IH. exact E.
Qed.

Lemma encode_length s : String.length s <= String.length (encodeURIComponent s).
Proof.
  induction s as [|c s IH]; [reflexivity|].
  rewrite encode_cons. destruct (uri_unreserved c); cbn [String.length]; lia.
Qed.

(** Encoding leaves a string as it is exactly when all its bytes
    are unreserved (so a plain word such as a search term of letters and
    digits goes into the URL unchanged, and any other string does
    not). *)
Lemma encodeURIComponent_fixed s :
  encodeURIComponent s = s <-> string_forall uri_unreserved s = true.
Proof.
  induction s as [|c s IH]; [split; reflexivity|].
  rewrite encode_cons. cbn [string_forall].
  destruct (uri_unreserved c) eqn:Hc; cbn [andb].
  - rewrite <- IH. split.
    + intros E. injection E as E. exact E.
    + intros ->. reflexivity.
  - split; [|discriminate].
    intros E. injection E as _ E.
    pose proof (encode_length s) as Hlen.
    rewrite <- E in Hlen at 1. cbn [String.length] in Hlen. lia.
Qed.

Lemma length_append a b :
  String.length (a ++ b) = String.length a + String.length b.
Proof. induction a as [|c a IH]; cbn; [|rewrite IH]; reflexivity. Qed.

Lemma append_inv_head x : forall y z, x ++ y = x ++ z -> y = z.
Proof.
  induction x as [|c x IH]; cbn; intros y z E; [exact E|].
  injection E as E. apply IH. exact E.
Qed.

Lemma append_inv_tail c : forall a b, a ++ c = b ++ c -> a = b.
Proof.
  induction a as [|x a IH]; intros [|y b] E.
  - reflexivity.
  - apply (f_equal String.length) in E. cbn in E.
    rewrite length_append in E. lia.
  - apply (f_equal String.length) in E. cbn in E.
    rewrite length_append in E. lia.
  - cbn in E. injection E as -> E. f_equal. apply IH. exact E.
Qed.

(** A string is cut in one way only at its last [&]. *)
Lemma last_ampersand x : forall x' y y',
  string_forall (fun c => negb (Ascii.eqb c "&")) y = true ->
  string_forall (fun c => negb (Ascii.eqb c "&")) y' = true ->
  x ++ String "&" y = x' ++ String "&" y' ->
  x = x' /\ y = y'.
Proof.
  induction x as [|c x IH]; intros [|c' x'] y y' Hy Hy' E; cbn in E.
  - injection E as E. auto.
  - injection E as <- E. rewrite E, string_forall_app in Hy.
    cbn in Hy. rewrite andb_false_r in Hy. discriminate.
  - injection E as -> E. rewrite <- E, string_forall_app in Hy'.
    cbn in Hy'. rewrite andb_false_r in Hy'. discriminate.
  - injection E as -> E. destruct (IH x' y y' Hy Hy' E) as [-> ->]. auto.
Qed.

Lemma encoded_no_ampersand prefix q :
  string_forall (fun c => negb (Ascii.eqb c "&")) prefix = true ->
  string_forall (fun c => negb (Ascii.eqb c "&"))
                (prefix ++ encodeURIComponent q) = true.
Proof.
  intros Hp. rewrite string_forall_app, Hp. cbn [andb].
  apply (string_forall_impl (fun c => negb (delimiter c)));
    [|apply encodeURIComponent_safe].
  intros c Hc. unfold delimiter in Hc. cbn [existsb] in Hc.
  destruct (Ascii.eqb c "&"); [discriminate|reflexivity].
Qed.

(** The one request of a search through the GET handler. *)
Lemma GET_search_request env (net : network) r s q :
  session_of r = Some s ->
  searchParams_get (searchParams r) "action" = Some "search" ->
  searchParams_get (searchParams r) "query" = Some q ->
  requests (snd (run (GET env net r)))
  = [get_request (PYTHON_API_URL env ++ "/api/search?session_id="
                  ++ s ++ String "&" ("query=" ++ encodeURIComponent q))].
Proof.
  intros Hs Ha Hq.
  rewrite (GET_requests env net r s Hs), (search_url env r s q Ha Hq).
  reflexivity.
Qed.

(** X9: the query of a search cannot break the backend URL.  The GET
    handler forwards it in a form that contains none of the delimiters
    [& = # ? / + : ; ,] and no space, whatever the caller sent, and
    forwards it unchanged exactly when all its bytes are unreserved (as
    for a plain word). *)
Theorem GET_search_query_encoded env (net : network) request s q :
  session_of request = Some s ->
  searchParams_get (searchParams request) "action" = Some "search" ->
  searchParams_get (searchParams request) "query" = Some q ->
  exists forwarded,
    requests (snd (run (GET env net request)))
    = [get_request (PYTHON_API_URL env ++ "/api/search?session_id=" ++ s
                    ++ "&query=" ++ forwarded)] /\
    string_forall (fun c => negb (delimiter c)) forwarded = true /\
    (forwarded = q <-> string_forall uri_unreserved q = true).
Proof.
  intros Hs Ha Hq. exists (encodeURIComponent q).
  split; [exact (GET_search_request env net request s q Hs Ha Hq)|].
  split; [apply encodeURIComponent_safe|apply encodeURIComponent_fixed].
Qed.

(** Two searches of the tool that issue the same request. *)
Lemma tool_search_injective `{Engine} (net : network) s1 q1 s2 q2 t :
  has_lone_surrogate q1 = false ->
  has_lone_surrogate q2 = false ->
  requests (snd (searchVideoContent net s1 q1 t))
  = requests (snd (searchVideoContent net s2 q2 t)) ->
  s1 = s2 /\ q1 = q2.
Proof.
  intros Hw1 Hw2 E.
  rewrite !ToolFacts.searchVideoContent_run in E. cbn zeta in E.
  rewrite Hw1, Hw2 in E. cbn [snd] in E.
  rewrite !PollFacts.requests_app in E. apply app_inv_head in E.
  cbn [requests] in E. injection E as E.
  change (s1 ++ "&action=search&query=" ++ encodeURIComponent q1
          = s2 ++ "&action=search&query=" ++ encodeURIComponent q2) in E.
  assert (Hcut : forall s q,
            s ++ "&action=search&query=" ++ q
            = (s ++ "&action=search") ++ String "&" ("query=" ++ q))
    by (intros; rewrite append_assoc; reflexivity).
  rewrite !Hcut in E.
  apply last_ampersand in E;
    try (apply (encoded_no_ampersand "query="); reflexivity).
  destruct E as [Es Eq]. apply append_inv_tail in Es.
  cbn in Eq. injection Eq as Eq.
  split; [exact Es|]. apply encodeURIComponent_injective. exact Eq.
Qed.

(** Two searches through the route that fetch the same URL. *)
Lemma route_search_injective env (net : network) r1 r2 s1 q1 s2 q2 :
  session_of r1 = Some s1 ->
  searchParams_get (searchParams r1) "action" = Some "search" ->
  searchParams_get (searchParams r1) "query" = Some q1 ->
  session_of r2 = Some s2 ->
  searchParams_get (searchParams r2) "action" = Some "search" ->
  searchParams_get (searchParams r2) "query" = Some q2 ->
  requests (snd (run (GET env net r1))) = requests (snd (run (GET env net r2))) ->
  s1 = s2 /\ q1 = q2.
Proof.
  intros Hs1 Ha1 Hq1 Hs2 Ha2 Hq2 E.
  rewrite (GET_search_request env net r1 s1 q1 Hs1 Ha1 Hq1),
          (GET_search_request env net r2 s2 q2 Hs2 Ha2 Hq2) in E.
  injection E as E.
  apply append_inv_head in E.
  apply (append_inv_head "/api/search?session_id=") in E.
  apply last_ampersand in E;
    try (apply (encoded_no_ampersand "query="); reflexivity).
  destruct E as [Es Eq]. cbn in Eq. injection Eq as Eq.
  split; [exact Es|]. apply encodeURIComponent_injective. exact Eq.
Qed.

(** X10: a search is sent under a URL of its own.  The session
    identifier goes into the URL as it is and the query encoded, and
    because an encoded query contains no [&], two searches that differ in
    the session identifier or in the query issue different requests: in
    [searchVideoContent], for queries that can be encoded (a query with
    a lone surrogate issues no request), and in the search endpoint of
    the route's GET handler. *)
Theorem search_urls_unambiguous :
  (forall `{Engine} (net : network) s1 q1 s2 q2 t,
     has_lone_surrogate q1 = false ->
     has_lone_surrogate q2 = false ->
     (s1, q1) <> (s2, q2) ->
     requests (snd (searchVideoContent net s1 q1 t))
     <> requests (snd (searchVideoContent net s2 q2 t)))
  /\ (forall env (net : network) r1 r2 s1 q1 s2 q2,
        session_of r1 = Some s1 ->
        searchParams_get (searchParams r1) "action" = Some "search" ->
        searchParams_get (searchParams r1) "query" = Some q1 ->
        session_of r2 = Some s2 ->
        searchParams_get (searchParams r2) "action" = Some "search" ->
        searchParams_get (searchParams r2) "query" = Some q2 ->
        (s1, q1) <> (s2, q2) ->
        requests (snd (run (GET env net r1)))
        <> requests (snd (run (GET env net r2)))).
Proof.
  split.
  - intros H net s1 q1 s2 q2 t Hw1 Hw2 Hne E. apply Hne.
    destruct (tool_search_injective net s1 q1 s2 q2 t Hw1 Hw2 E) as [-> ->].
    reflexivity.
  - intros env net r1 r2 s1 q1 s2 q2 Hs1 Ha1 Hq1 Hs2 Ha2 Hq2 Hne E. apply Hne.
    destruct (route_search_injective env net r1 r2 s1 q1 s2 q2
                Hs1 Ha1 Hq1 Hs2 Ha2 Hq2 E) as [-> ->].
    reflexivity.
Qed.

Import Samples MoreSamples.

Lemma GET_search_query_encoded_witness :
  exists forwarded,
    requests (snd (run (GET None not_found search_cat)))
    = [get_request ("http://localhost:8000" ++ "/api/search?session_id=" ++ "abc"
                    ++ "&query=" ++ forwarded)] /\
    string_forall (fun c => negb (delimiter c)) forwarded = true /\
    (forwarded = "cat" <-> string_forall uri_unreserved "cat" = true).
Proof.
  apply (GET_search_query_encoded None not_found search_cat "abc" "cat");
    reflexivity.
Defined.

Lemma search_urls_unambiguous_witness :
  requests (snd (searchVideoContent offline "abc" "cat&dog" []))
  <> requests (snd (searchVideoContent offline "abc&dog" "cat" [])).
Proof.
  apply (proj1 search_urls_unambiguous engine offline
               "abc" "cat&dog" "abc&dog" "cat" []);
    [reflexivity|reflexivity|discriminate].
Defined.

End EncodingFacts.

(* ===================================================================== *)
(** ** The route: POST, and the edges of GET *)
(* ===================================================================== *)

Module RouteMoreFacts.
Import JS Json Net Spec Extra Route StringFacts JsonFacts RouteFacts.

Section Facts.
Context (env : option string) (net : network).

(** X11: the POST handler always answers, with 200 or 500.  It contacts
    the backend exactly when the body of the request parses, once, with
    a POST to [/api/analyze] under the JSON content type whose text is
    [JSON.stringify] of the parsed body.  With 200 goes the JSON text
    made of the backend's answer (its status is not looked at) and
    nothing is written to the console; with 500 goes the fixed error
    body, after one [console.error]. *)
Theorem POST_discipline request :
  exists res t,
    run (POST env net request) = (Normal res, t) /\
    requests t
    = match request_json request with
      | Throw _ => []
      | Normal sent =>
          [mkRequest HttpPOST (PYTHON_API_URL env ++ "/api/analyze")
                     [("Content-Type", "application/json")] (Some sent)]
      end /\
    map sent_text (requests t)
    = match request_json request with
      | Throw _ => []
      | Normal sent => [JSON_stringify sent]
      end /\
    (status res = 200 \/ status res = 500) /\
    (status res = 500 ->
     JSON_parse (body res)
     = obj [("error", VStr "Failed to start video analysis")] /\
     length (console_errors t) = 1) /\
    (status res = 200 ->
     console_errors t = [] /\
     exists sent,
       request_json request = Normal sent /\
       relayed (net 0 (mkRequest HttpPOST (PYTHON_API_URL env ++ "/api/analyze")
                                 [("Content-Type", "application/json")]
                                 (Some sent)))
       = Some (body res)).
Proof.
  unfold run, POST, try_catch, bind, fetch, json, lift, ret, console_error,
    emit, NextResponse_json, relayed.
  destruct (request_json request) as [e|sent].
  { do 2 eexists. split; [reflexivity|]. cbn.
    repeat split; auto; discriminate. }
  cbn [fetch_count requests length app].
  destruct (net 0 _) as [e|resp] eqn:Hnet.
  { do 2 eexists. split; [reflexivity|]. cbn.
    repeat split; auto; discriminate. }
  destruct (resp_json resp) as [e|data] eqn:Hjson.
  { do 2 eexists. split; [reflexivity|]. cbn.
    repeat split; auto; discriminate. }
  destruct (JSON_stringify data) as [text|] eqn:Htext.
  - do 2 eexists. split; [reflexivity|]. cbn.
    repeat split; auto; try discriminate.
    exists sent. split; [reflexivity|]. rewrite Hnet, Hjson. exact Htext.
  - do 2 eexists. split; [reflexivity|]. cbn.
    repeat split; auto; discriminate.
Qed.

(** X12: the status and comparison endpoints take the session identifier
    and nothing else.  An action that is absent or is not exactly
    [transcript], [scenes], [comparison] or [search] is served as a
    status query, and for it as for [comparison] the [timestamp] and
    [query] parameters of the request are not forwarded. *)
Theorem GET_plain_endpoints request s :
  session_of request = Some s ->
  ((forall a, searchParams_get (searchParams request) "action" = Some a ->
              known_action a = false) ->
   requests (snd (run (GET env net request)))
   = [get_request (PYTHON_API_URL env ++ "/api/status/" ++ s)])
  /\ (searchParams_get (searchParams request) "action" = Some "comparison" ->
      requests (snd (run (GET env net request)))
      = [get_request (PYTHON_API_URL env ++ "/api/comparison/" ++ s)]).
Proof.
  intros Hs.
  assert (Hreq : requests (snd (run (GET env net request)))
                 = [get_request (PYTHON_API_URL env
                                 ++ endpoint_of (searchParams request) s)]).
  { apply (GET_requests env net request s Hs). }
  rewrite Hreq. split.
  - intros Hunknown. do 3 f_equal. unfold endpoint_of, action_is.
    destruct (searchParams_get (searchParams request) "action") as [a|];
      [|reflexivity].
    specialize (Hunknown a eq_refl). unfold known_action in Hunknown.
    cbn [existsb] in Hunknown.
    repeat (apply orb_false_iff in Hunknown as [? Hunknown]).
    repeat match goal with
           | E : String.eqb a _ = false |- _ => rewrite E; clear E
           end.
    reflexivity.
  - intros Ha. do 3 f_equal. unfold endpoint_of. rewrite Ha. reflexivity.
Qed.

(** X13: the GET handler always answers, after at most one request to
    the backend, and after none exactly when the session identifier is
    missing or empty.  An answer other than 200 carries one of the two
    fixed error bodies: nothing of what went wrong is passed on. *)
Theorem GET_discipline request :
  exists res t,
    run (GET env net request) = (Normal res, t) /\
    fetch_count t <= 1 /\
    (fetch_count t = 0 <-> session_of request = None) /\
    (status res <> 200 ->
     JSON_parse (body res) = obj [("error", VStr "Session ID required")] \/
     JSON_parse (body res)
     = obj [("error", VStr "Failed to fetch analysis data")]).
Proof.
  destruct (session_of request) as [s|] eqn:Hs.
  - rewrite (GET_forwarded env net request s Hs). cbn zeta.
    destruct (relayed _) as [text|];
      do 2 eexists; (split; [reflexivity|]); cbn;
      (split; [lia|]); (split; [split; discriminate|]); auto.
    intros Hne. contradiction.
  - rewrite (GET_missing env net request Hs). do 2 eexists.
    split; [reflexivity|]. cbn. split; [lia|]. split; [tauto|]. auto.
Qed.

End Facts.

Import Samples MoreSamples.

Lemma GET_plain_endpoints_witness :
  requests (snd (run (GET None not_found unknown_action)))
  = [get_request "http://localhost:8000/api/status/abc"].
Proof.
  apply (proj1 (GET_plain_endpoints None not_found unknown_action "abc" eq_refl)).
  intros a [= <-]. reflexivity.
Defined.

End RouteMoreFacts.

(* ===================================================================== *)
(** ** The display component *)
(* ===================================================================== *)

Module DisplayFacts.
Import JS Net Spec Extra Display.

Section Facts.
Context `{Engine} (net : network) (first_settled : list js_error -> js_error).

(** The part of [fetchAnalysisData] after the status query is decided,
    by what the three component queries are answered with. *)
Ltac components :=
  cbn [fetch_count requests length app];
  destruct (net 1 _) as [?e1|?r1], (net 2 _) as [?e2|?r2],
           (net 3 _) as [?e3|?r3];
  cbn [settle rejections fulfilments map];
  try (destruct (resp_json r1), (resp_json r2), (resp_json r3);
       cbn [rejections fulfilments]).

Ltac status_query :=
  unfold run, fetchAnalysisData;
  unfold Promise_all, console_error, emit, display_status, display_components;
  unfold try_catch, bind, fetch, fetch_promise, json, lift, ret;
  cbn [fetch_count requests length app].

(** X14: [fetchAnalysisData] always settles.  Without a session
    identifier it makes no request and leaves the state as it is.  With
    one it never throws, ends with [loading] false, and has made either
    the status query alone or the status query followed by the three
    component queries, each with the session identifier as it is. *)
Theorem fetchAnalysisData_settles sessionId st :
  exists st' t,
    run (fetchAnalysisData net first_settled sessionId st) = (Normal st', t) /\
    match session_prop sessionId with
    | None => st' = st /\ t = []
    | Some s =>
        loading st' = false /\
        (requests t = [display_status s] \/
         requests t = display_status s :: display_components s)
    end.
Proof.
  status_query.
  destruct (session_prop sessionId) as [s|]; [|do 2 eexists; repeat split].
  cbn [fetch_count requests length app].
  assert (Hdone : forall (c : completion display_state * trace) st' t,
            c = (Normal st', t) ->
            loading st' = false ->
            (requests t = [get_request ("/api/video-analysis?sessionId=" ++ s)] \/
             requests t = get_request ("/api/video-analysis?sessionId=" ++ s)
                          :: display_components s) ->
            exists st' t,
              c = (Normal st', t) /\
              loading st' = false /\
              (requests t = [get_request ("/api/video-analysis?sessionId=" ++ s)] \/
               requests t = get_request ("/api/video-analysis?sessionId=" ++ s)
                            :: display_components s))
    by (intros; eauto).
  destruct (net 0 _) as [e|r0];
    [eapply Hdone; [reflexivity|reflexivity|left; reflexivity]|].
  destruct (resp_json r0) as [e|statusData];
    [eapply Hdone; [reflexivity|reflexivity|left; reflexivity]|].
  destruct (property statusData "status") as [e|status];
    [eapply Hdone; [reflexivity|reflexivity|left; reflexivity]|].
  destruct (strict_eq_string status "completed").
  - destruct (property statusData "data") as [e|data];
      [eapply Hdone; [reflexivity|reflexivity|left; reflexivity]|].
    destruct (truthy data);
      [eapply Hdone; [reflexivity|reflexivity|left; reflexivity]|].
    components; (eapply Hdone; [reflexivity|reflexivity|right; reflexivity]).
  - components; (eapply Hdone; [reflexivity|reflexivity|right; reflexivity]).
Qed.

(** X15: when the status query reports a completed analysis with data,
    [fetchAnalysisData] stores that data, ends with [loading] false and
    makes no further request. *)
Theorem fetchAnalysisData_completed sessionId s st fields :
  session_prop sessionId = Some s ->
  parsed (net 0 (display_status s)) = Some (VObj fields) ->
  lookup "status" fields = VStr "completed" ->
  truthy (lookup "data" fields) = true ->
  run (fetchAnalysisData net first_settled sessionId st) =
  (Normal {| analysisData := lookup "data" fields; loading := false |},
   [EvFetch (display_status s)]).
Proof.
  intros Hs Hp Hstatus Hdata. status_query. rewrite Hs.
  cbn [fetch_count requests length app].
  unfold parsed, display_status in Hp.
  destruct (net 0 _) as [e|r0]; [discriminate|].
  cbv beta iota.
  destruct (resp_json r0) as [e|statusData]; [discriminate|].
  injection Hp as ->. cbn [property]. cbv beta iota. rewrite Hstatus.
  cbn [strict_eq_string String.eqb Ascii.eqb Bool.eqb]. cbv beta iota.
  rewrite Hdata. reflexivity.
Qed.

(** X16: when the status query is answered but not with a completed
    analysis that has data (a pending or failed session, or completion
    without data), [fetchAnalysisData] asks for the transcript, the scenes
    and the comparison, in this order and whatever each is answered with;
    when all three answers parse, it stores them with the reported status
    and ends with [loading] false. *)
Theorem fetchAnalysisData_components sessionId s st statusData status :
  session_prop sessionId = Some s ->
  parsed (net 0 (display_status s)) = Some statusData ->
  property statusData "status" = Normal status ->
  ready statusData = false ->
  requests (snd (run (fetchAnalysisData net first_settled sessionId st)))
  = display_status s :: display_components s
  /\ (forall transcript scenes comparison,
        body_of (net 1 (get_request ("/api/video-analysis?sessionId=" ++ s
                                     ++ "&action=transcript")))
        = Normal transcript ->
        body_of (net 2 (get_request ("/api/video-analysis?sessionId=" ++ s
                                     ++ "&action=scenes")))
        = Normal scenes ->
        body_of (net 3 (get_request ("/api/video-analysis?sessionId=" ++ s
                                     ++ "&action=comparison")))
        = Normal comparison ->
        fst (run (fetchAnalysisData net first_settled sessionId st)) =
        Normal {| analysisData := obj [("status", status);
                                       ("transcript", transcript);
                                       ("scenes", scenes);
                                       ("comparison", comparison)];
                  loading := false |}).
Proof.
  intros Hs Hp Hstatus Hready. status_query. rewrite Hs.
  cbn [fetch_count requests length app].
  unfold parsed, display_status in Hp.
  destruct (net 0 _) as [e|r0]; [discriminate|].
  cbv beta iota.
  destruct (resp_json r0) as [e|sd]; [discriminate|].
  injection Hp as ->. cbv beta iota. rewrite Hstatus. cbv beta iota.
  unfold body_of.
  destruct (strict_eq_string status "completed") eqn:Hc.
  - assert (Hdata : exists data, property statusData "data" = Normal data
                                 /\ truthy data = false).
    { unfold ready in Hready.
      destruct statusData; cbn in Hstatus; try discriminate;
        injection Hstatus as <-; try discriminate.
      rewrite Hc in Hready. cbn in Hready |- *. eauto. }
    destruct Hdata as (data & -> & ->). cbv beta iota.
    components; (split; [reflexivity|]);
      intros transcript scenes comparison H1 H2 H3; try discriminate.
    injection H1 as ->. injection H2 as ->. injection H3 as ->. reflexivity.
  - cbv beta iota.
    components; (split; [reflexivity|]);
      intros transcript scenes comparison H1 H2 H3; try discriminate.
    injection H1 as ->. injection H2 as ->. injection H3 as ->. reflexivity.
Qed.

(** X17: a failure leaves the data alone.  [fetchAnalysisData] writes at
    most one message to the console, and when it writes one (a request
    was rejected, a body was not JSON, the status answer was [null]) the
    stored [analysisData] is what it was before the call and [loading] is
    false. *)
Theorem fetchAnalysisData_failure_keeps_data sessionId st :
  length (console_errors
            (snd (run (fetchAnalysisData net first_settled sessionId st)))) <= 1
  /\ (console_errors
        (snd (run (fetchAnalysisData net first_settled sessionId st))) <> [] ->
      fst (run (fetchAnalysisData net first_settled sessionId st))
      = Normal {| analysisData := analysisData st; loading := false |}).
Proof.
  status_query.
  destruct (session_prop sessionId) as [s|];
    [|cbn; split; [lia|congruence]].
  cbn [fetch_count requests length app].
  destruct (net 0 _) as [e|r0]; [cbn; split; [lia|reflexivity]|].
  destruct (resp_json r0) as [e|statusData]; [cbn; split; [lia|reflexivity]|].
  destruct (property statusData "status") as [e|status];
    [cbn; split; [lia|reflexivity]|].
  destruct (strict_eq_string status "completed").
  - destruct (property statusData "data") as [e|data];
      [cbn; split; [lia|reflexivity]|].
    destruct (truthy data); [cbn; split; [lia|congruence]|].
    components; cbn; (split; [lia|]); first [reflexivity|congruence].
  - components; cbn; (split; [lia|]); first [reflexivity|congruence].
Qed.

End Facts.

Import Samples MoreSamples.

Lemma fetchAnalysisData_completed_witness :
  run (fetchAnalysisData (H := engine) done (hd failed_to_fetch)
                         (Some "abc") initial_state) =
  (Normal {| analysisData := obj [("summary", VStr "ok")]; loading := false |},
   [EvFetch (display_status "abc")]).
Proof.
  apply (@fetchAnalysisData_completed engine done (hd failed_to_fetch)
           (Some "abc") "abc" initial_state
           [("status", VStr "completed");
            ("data", obj [("summary", VStr "ok")])]);
    reflexivity.
Defined.

Lemma fetchAnalysisData_components_witness :
  requests (snd (run (fetchAnalysisData (H := engine) not_found
                        (hd failed_to_fetch) (Some "abc") initial_state)))
  = display_status "abc" :: display_components "abc".
Proof.
  apply (proj1 (@fetchAnalysisData_components engine not_found
                  (hd failed_to_fetch) (Some "abc") "abc" initial_state
                  not_found_body VUndefined eq_refl eq_refl eq_refl eq_refl)).
Defined.

Lemma fetchAnalysisData_failure_keeps_data_witness :
  fst (run (fetchAnalysisData (H := engine) offline (hd failed_to_fetch)
              (Some "abc")
              {| analysisData := VStr "earlier"; loading := false |}))
  = Normal {| analysisData := VStr "earlier"; loading := false |}.
Proof.
  apply (proj2 (@fetchAnalysisData_failure_keeps_data engine offline
                  (hd failed_to_fetch) (Some "abc")
                  {| analysisData := VStr "earlier"; loading := false |})).
  discriminate.
Defined.

End DisplayFacts.

(* ===================================================================== *)
(** ** The tools behind the route *)
(* ===================================================================== *)

Module ComposeFacts.
Import JS Json Net Agent Spec Extra Route PollFacts AnalyzeFacts JsonFacts
  RouteFacts.

Section Facts.
Context `{Engine} (client : network) (env : option string).

(** An error answer of the GET handler reads as a pending session: its
    body has no [status]. *)
Lemma proxy_failure_pending backend request :
  proxy_failed env backend request = true ->
  reports_pending (proxy_reply (run (GET env backend request))) = true.
Proof.
  unfold proxy_failed. intros Hf.
  destruct (session_of request) as [s|] eqn:Hs.
  - rewrite (GET_forwarded env backend request s Hs). cbn zeta.
    unfold parsed in Hf. unfold relayed.
    destruct (backend 0 _) as [e|resp]; [reflexivity|].
    destruct (resp_json resp); [reflexivity|discriminate].
  - rewrite (GET_missing env backend request Hs). reflexivity.
Qed.

(** X18: a failing proxy is not reported, it is waited out.  When the
    analysis has started and every status query is answered by the
    route's GET handler with one of its own errors (400 for a missing
    session identifier, 500 for a backend that cannot be reached or that
    answers without JSON), [analyzeVideo] takes each answer for a pending
    session: it polls 60 times and returns [{error: 'Analysis timeout'}],
    and the handler's error message is not in its result. *)
Theorem analyzeVideo_behind_failing_proxy params started sid
    (backends : nat -> network) (asked : nat -> NextRequest) :
  parsed (client 0 (start_request (videoUrl params))) = Some started ->
  property started "session_id" = Normal sid ->
  truthy sid = true ->
  (forall j, 1 <= j <= 60 ->
     client j (status_request sid)
     = proxy_reply (run (GET env (backends j) (asked j))) /\
     proxy_failed env (backends j) (asked j) = true) ->
  run (analyzeVideo client params) =
    (Normal (obj [("error", VStr "Analysis timeout")]),
     EvFetch (start_request (videoUrl params)) :: poll_events sid 60).
Proof.
  intros Hstart Hsid Ht Hproxy.
  rewrite (analyzeVideo_started client params started sid Hstart Hsid Ht).
  rewrite (poll_pending_rounds client 60 60 sid 0
             [EvFetch (start_request (videoUrl params))]).
  - rewrite poll_exit by (cbn; lia). reflexivity.
  - lia.
  - intros j Hj. cbn [fetch_count requests length].
    destruct (Hproxy (1 + j) ltac:(lia)) as [-> Hf].
    apply proxy_failure_pending. exact Hf.
Qed.

(** X19: what a client reads from the GET handler.  When the request
    carries a session identifier and the backend's answer parses, the
    client reads the backend's JSON value after one more
    [JSON.stringify] and [JSON.parse]: the same value when it holds no
    infinity and no [-0], and otherwise with [null] for an infinity and
    [0] for [-0].  A further hop of the same kind changes nothing
    more. *)
Theorem GET_transparent backend request s sent :
  session_of request = Some s ->
  parsed (backend 0 (get_request (backend_url env request s))) = Some sent ->
  sent <> VUndefined ->
  parsed (proxy_reply (run (GET env backend request))) = Some (reparse sent)
  /\ (exact sent = true ->
      parsed (proxy_reply (run (GET env backend request))) = Some sent)
  /\ reparse (reparse sent) = reparse sent.
Proof.
  intros Hs Hp Hdef.
  assert (E : parsed (proxy_reply (run (GET env backend request)))
              = Some (reparse sent)).
  { rewrite (GET_forwarded env backend request s Hs). cbn zeta.
    unfold parsed in Hp. unfold relayed.
    destruct (backend 0 _) as [e|resp]; [discriminate|].
    destruct (resp_json resp) as [e|data]; [discriminate|].
    injection Hp as ->.
    destruct sent; try contradiction; reflexivity. }
  split; [exact E|]. split; [|apply reparse_idempotent].
  intros He. rewrite E, (reparse_exact sent He). reflexivity.
Qed.

End Facts.

Import Samples MoreSamples.

Lemma GET_transparent_witness :
  parsed (proxy_reply (run (GET None overflowing status_of_abc)))
  = Some (obj [("score", VNull); ("offset", VNum (S754_zero false))]).
Proof.
  apply (proj1 (GET_transparent None overflowing status_of_abc "abc"
                  overflowing_body eq_refl eq_refl ltac:(discriminate))).
Defined.

Lemma analyzeVideo_behind_failing_proxy_witness :
  run (analyzeVideo (H := engine) behind_offline_proxy params) =
    (Normal (obj [("error", VStr "Analysis timeout")]),
     EvFetch (start_request (videoUrl params))
     :: poll_events (H := engine) (VStr "abc") 60).
Proof.
  apply (@analyzeVideo_behind_failing_proxy engine behind_offline_proxy None
           params
           (obj [("session_id", VStr "abc"); ("status", VStr "pending")])
           (VStr "abc") (fun _ => offline) (fun _ => status_of_abc));
    try reflexivity.
  intros j Hj. destruct j as [|j]; [lia|]. split; reflexivity.
Defined.

End ComposeFacts.
